(** * Helius SDK: collection resolution and webhook merge

    A shallow embedding of the webhook part of [src/Helius.ts]
    ([getWebhookByID], [createWebhook], [editWebhook],
    [appendAddressesToWebhook], [removeAddressesFromWebhook],
    [createCollectionWebhook], [getMintlist], [getApiEndpoint],
    [_editWebhook]) together with the types of [src/types/types.ts] they
    use, followed by the properties of the specification that concern them.

    The asynchronous methods are embedded in a small monad that threads the
    chronological log of HTTP calls issued so far and carries the three ways
    a call can end: a returned value, a thrown exception, or an exhausted
    iteration budget (only the pagination loop consumes budget).  The remote
    service is an arbitrary function of the call history and the call. *)

From Stdlib Require Import String List ZArith Bool Lia.
Import ListNotations.

Local Open Scope string_scope.
Local Open Scope list_scope.

(** ** JavaScript values *)

(** A value that may be missing.  [undefined] also stands for a property
    that is absent from its object: reading an absent property yields
    [undefined], and JSON serialisation drops a property whose value is
    [undefined], so the two are not told apart by this code or on the wire. *)
Inductive js_opt (A : Type) : Type :=
| undefined
| null
| defined (a : A).

Arguments undefined {A}.
Arguments null {A}.
Arguments defined {A} a.

(** [x == undefined] (loose equality: true of [undefined] and [null]). *)
Definition is_nullish {A : Type} (x : js_opt A) : bool :=
  match x with
  | defined _ => false
  | _ => true
  end.

(** [x ?? d] *)
Definition nullish_coalesce {A : Type} (x d : js_opt A) : js_opt A :=
  match x with
  | defined _ => x
  | _ => d
  end.

Notation "x ?? d" := (nullish_coalesce x d) (at level 45, left associativity).

(** Truthiness of a possibly missing string: [undefined], [null] and the
    empty string are falsy. *)
Definition truthy (x : js_opt string) : bool :=
  match x with
  | defined s => negb (s =? "")%string
  | _ => false
  end.

(** [`${x}`] for a possibly missing string. *)
Definition template (x : js_opt string) : string :=
  match x with
  | undefined => "undefined"
  | null => "null"
  | defined s => s
  end.

(** ** Types of [types.ts] *)

(** The enumerations of [./enums] are string enums; their members are
    strings at run time, which is all the code below relies on. *)
Definition TransactionType := string.
Definition WebhookType := string.
Definition TxnStatus := string.
Definition AccountWebhookEncoding := string.

Module HeliusEndpoints.
Record t := mk { api : string; rpc : string }.
End HeliusEndpoints.

Module HeliusOptions.
Record t := mk { limit : js_opt Z; paginationToken : js_opt string }.
End HeliusOptions.

Module Webhook.
Record t := mk {
  webhookID : string;
  wallet : string;
  project : string;
  webhookURL : string;
  transactionTypes : list TransactionType;
  accountAddresses : list string;
  accountAddressOwners : js_opt (list string);
  webhookType : js_opt WebhookType;
  authHeader : js_opt string;
  txnStatus : js_opt TxnStatus;
  encoding : js_opt AccountWebhookEncoding
}.
End Webhook.

Module CollectionIdentifier.
Record t := mk {
  firstVerifiedCreators : js_opt (list string);
  verifiedCollectionAddresses : js_opt (list string)
}.
End CollectionIdentifier.

(** [Omit<Webhook, 'webhookID' | 'wallet' | 'project'>] *)
Module CreateWebhookRequest.
Record t := mk {
  webhookURL : string;
  transactionTypes : list TransactionType;
  accountAddresses : list string;
  accountAddressOwners : js_opt (list string);
  webhookType : js_opt WebhookType;
  authHeader : js_opt string;
  txnStatus : js_opt TxnStatus;
  encoding : js_opt AccountWebhookEncoding
}.
End CreateWebhookRequest.

(** [Partial<Omit<Webhook, 'webhookID' | 'wallet' | 'project'>>] *)
Module EditWebhookRequest.
Record t := mk {
  webhookURL : js_opt string;
  transactionTypes : js_opt (list TransactionType);
  accountAddresses : js_opt (list string);
  accountAddressOwners : js_opt (list string);
  webhookType : js_opt WebhookType;
  authHeader : js_opt string;
  txnStatus : js_opt TxnStatus;
  encoding : js_opt AccountWebhookEncoding
}.

(** The object literal [{ accountAddresses }]. *)
Definition only_accountAddresses (accountAddresses : list string) : t :=
  {| webhookURL := undefined;
     transactionTypes := undefined;
     accountAddresses := defined accountAddresses;
     accountAddressOwners := undefined;
     webhookType := undefined;
     authHeader := undefined;
     txnStatus := undefined;
     encoding := undefined |}.
End EditWebhookRequest.

(** [CreateCollectionWebhookRequest extends CreateWebhookRequest] *)
Module CreateCollectionWebhookRequest.
Record t := mk {
  webhookURL : string;
  transactionTypes : list TransactionType;
  accountAddresses : list string;
  accountAddressOwners : js_opt (list string);
  webhookType : js_opt WebhookType;
  authHeader : js_opt string;
  txnStatus : js_opt TxnStatus;
  encoding : js_opt AccountWebhookEncoding;
  collectionQuery : js_opt CollectionIdentifier.t
}.
End CreateCollectionWebhookRequest.

Module MintlistItem.
Record t := mk { mint : string; name : string }.
End MintlistItem.

(** [paginationToken] is declared a [string]; the value comes from the
    remote service and the loop tests it for truthiness, so it is kept as
    a possibly missing string. *)
Module MintlistResponse.
Record t := mk {
  result : list MintlistItem.t;
  paginationToken : js_opt string
}.
End MintlistResponse.

Module MintlistRequest.
Record t := mk {
  query : js_opt CollectionIdentifier.t;
  options : js_opt HeliusOptions.t
}.
End MintlistRequest.

(** ** Exceptions *)

(** A value found in [response.data.error]: a string, or a value of
    another kind, of which the catch clauses use only whether it is truthy
    and how [String()] renders it. *)
Inductive js_value : Type :=
| JsString (s : string)
| JsOther (is_truthy : bool) (rendering : string).

Definition value_truthy (v : js_value) : bool :=
  match v with
  | JsString s => negb (s =? "")%string
  | JsOther is_truthy _ => is_truthy
  end.

(** [String(v)] *)
Definition value_to_string (v : js_value) : string :=
  match v with
  | JsString s => s
  | JsOther _ rendering => rendering
  end.

(** What the code throws and catches: plain [Error]s and the errors of the
    HTTP client.  The latter carry what [err.response?.data.error] reads:
    [undefined] when there is no response or the body has no such field,
    the field's value otherwise.  A response is taken to come with a body;
    one whose body is missing is outside this model. *)
Inductive exn : Type :=
| Error (message : string)
| AxiosError (message : string) (data_error : js_opt js_value).

(** [err.response?.data.error] *)
Definition response_data_error (err : exn) : js_opt js_value :=
  match err with
  | AxiosError _ data_error => data_error
  | Error _ => undefined
  end.

Definition isAxiosError (err : exn) : bool :=
  match err with
  | AxiosError _ _ => true
  | Error _ => false
  end.

(** [`${err}`]: the name alone when the message is empty, the name, a
    colon and the message otherwise. *)
Definition exn_to_string (err : exn) : string :=
  match err with
  | Error m =>
      if (m =? "")%string then "Error" else ("Error: " ++ m)%string
  | AxiosError m _ =>
      if (m =? "")%string then "AxiosError" else ("AxiosError: " ++ m)%string
  end.

(** [`${x || err}`] *)
Definition value_or_error (x : js_opt js_value) (err : exn) : string :=
  match x with
  | defined v => if value_truthy v then value_to_string v else exn_to_string err
  | _ => exn_to_string err
  end.

(** The body shared by every [catch] clause of the class:
    [[
    if (axios.isAxiosError(err)) {
      throw new Error(`error during OP: ${err.response?.data.error || err}`);
    } else {
      throw new Error(`error during OP: ${err}`);
    }
    ]] *)
Definition rethrow (op : string) (err : exn) : exn :=
  if isAxiosError err then
    Error ("error during " ++ op ++ ": " ++
           value_or_error (response_data_error err) err)%string
  else Error ("error during " ++ op ++ ": " ++ exn_to_string err)%string.

(** ** The remote service and the monad of asynchronous methods *)

Inductive http_call : Type :=
| HttpGet (url : string)
| HttpPostMintlist (url : string) (body : MintlistRequest.t)
| HttpPostWebhook (url : string) (body : CreateWebhookRequest.t)
| HttpPut (url : string) (body : EditWebhookRequest.t).

(** Calls issued so far, oldest first. *)
Definition trace := list http_call.

(** The remote service answers each call from the history that precedes it
    and the call itself, with response data or a rejection. *)
Record Remote := {
  on_get : trace -> string -> exn + Webhook.t;
  on_post_mintlist : trace -> string -> MintlistRequest.t -> exn + MintlistResponse.t;
  on_post_webhook : trace -> string -> CreateWebhookRequest.t -> exn + Webhook.t;
  on_put : trace -> string -> EditWebhookRequest.t -> exn + Webhook.t
}.

Inductive outcome (A : Type) : Type :=
| Returned (a : A)
| Threw (e : exn)
| OutOfFuel.

Arguments Returned {A} a.
Arguments Threw {A} e.
Arguments OutOfFuel {A}.

Definition M (A : Type) : Type := trace -> outcome A * trace.

Definition ret {A : Type} (a : A) : M A := fun t => (Returned a, t).

Definition throw {A : Type} (e : exn) : M A := fun t => (Threw e, t).

Definition out_of_fuel {A : Type} : M A := fun t => (OutOfFuel, t).

Definition bind {A B : Type} (m : M A) (k : A -> M B) : M B :=
  fun t =>
    match m t with
    | (Returned a, t') => k a t'
    | (Threw e, t') => (Threw e, t')
    | (OutOfFuel, t') => (OutOfFuel, t')
    end.

Notation "x <- m ;; k" := (bind m (fun x => k))
  (at level 61, m at next level, right associativity).

(** [try { m } catch (err) { throw handler(err) }] *)
Definition try_catch {A : Type} (m : M A) (handler : exn -> exn) : M A :=
  fun t =>
    match m t with
    | (Threw e, t') => (Threw (handler e), t')
    | r => r
    end.

(** A synchronous computation that may throw. *)
Definition lift {A : Type} (r : exn + A) : M A :=
  match r with
  | inl e => throw e
  | inr a => ret a
  end.

(** One HTTP call: it is logged, then answered by the remote. *)
Definition request {A : Type} (c : http_call) (answer : trace -> exn + A) : M A :=
  fun t =>
    match answer t with
    | inl e => (Threw e, t ++ [c])
    | inr data => (Returned data, t ++ [c])
    end.

(** ** The [Helius] class *)

Record Helius := {
  apiKey : js_opt string;
  endpoints : HeliusEndpoints.t
}.

(** The constructor; [getHeliusEndpoints(cluster)] is passed in evaluated. *)
Definition new_Helius (apiKey : string) (endpoints : HeliusEndpoints.t) : exn + Helius :=
  if negb (apiKey =? "")%string then
    inr {| apiKey := defined apiKey; endpoints := endpoints |}
  else inl (Error "either `apiKey` is required").

(** [path.startsWith(p)] *)
Definition startsWith (path p : string) : bool := String.prefix p path.

Section Methods.

Variable this : Helius.
Variable remote : Remote.

Definition getApiEndpoint (path : string) : exn + string :=
  if negb (startsWith path "/v0") && negb (startsWith path "/v1") then
    inl (Error ("Invalid API path provided: " ++ path ++
                ". Path must start with '/v0' or '/v1'.")%string)
  else if negb (truthy (apiKey this)) then
    inl (Error "API key is not set")
  else
    inr (HeliusEndpoints.api (endpoints this) ++ path ++ "?api-key=" ++
         template (apiKey this))%string.

Definition axios_get (url : string) : M Webhook.t :=
  request (HttpGet url) (fun t => on_get remote t url).

Definition axios_post_mintlist (url : string) (body : MintlistRequest.t)
  : M MintlistResponse.t :=
  request (HttpPostMintlist url body) (fun t => on_post_mintlist remote t url body).

Definition axios_post_webhook (url : string) (body : CreateWebhookRequest.t)
  : M Webhook.t :=
  request (HttpPostWebhook url body) (fun t => on_post_webhook remote t url body).

Definition axios_put (url : string) (body : EditWebhookRequest.t) : M Webhook.t :=
  request (HttpPut url body) (fun t => on_put remote t url body).

Definition getWebhookByID (webhookID : string) : M Webhook.t :=
  try_catch
    (url <- lift (getApiEndpoint ("/v0/webhooks/" ++ webhookID)%string) ;;
     axios_get url)
    (rethrow "getWebhookByID").

Definition createWebhook (createWebhookRequest : CreateWebhookRequest.t)
  : M Webhook.t :=
  try_catch
    (url <- lift (getApiEndpoint "/v0/webhooks") ;;
     axios_post_webhook url createWebhookRequest)
    (rethrow "createWebhook").

(** The record built by [_editWebhook] before it is sent. *)
Definition editRequest_of (existingWebhook : Webhook.t)
    (editWebhookRequest : EditWebhookRequest.t) : EditWebhookRequest.t :=
  {| EditWebhookRequest.webhookURL :=
       EditWebhookRequest.webhookURL editWebhookRequest
       ?? defined (Webhook.webhookURL existingWebhook);
     EditWebhookRequest.transactionTypes :=
       EditWebhookRequest.transactionTypes editWebhookRequest
       ?? defined (Webhook.transactionTypes existingWebhook);
     EditWebhookRequest.accountAddresses :=
       EditWebhookRequest.accountAddresses editWebhookRequest
       ?? defined (Webhook.accountAddresses existingWebhook);
     EditWebhookRequest.accountAddressOwners :=
       EditWebhookRequest.accountAddressOwners editWebhookRequest
       ?? Webhook.accountAddressOwners existingWebhook;
     EditWebhookRequest.webhookType :=
       EditWebhookRequest.webhookType editWebhookRequest
       ?? Webhook.webhookType existingWebhook;
     EditWebhookRequest.authHeader :=
       EditWebhookRequest.authHeader editWebhookRequest
       ?? Webhook.authHeader existingWebhook;
     EditWebhookRequest.txnStatus :=
       EditWebhookRequest.txnStatus editWebhookRequest
       ?? Webhook.txnStatus existingWebhook;
     EditWebhookRequest.encoding :=
       EditWebhookRequest.encoding editWebhookRequest
       ?? Webhook.encoding existingWebhook |}.

Definition _editWebhook (webhookID : string) (existingWebhook : Webhook.t)
    (editWebhookRequest : EditWebhookRequest.t) : M Webhook.t :=
  let editRequest := editRequest_of existingWebhook editWebhookRequest in
  url <- lift (getApiEndpoint ("/v0/webhooks/" ++ webhookID)%string) ;;
  axios_put url editRequest.

(** In the three methods below the promise of [_editWebhook] is returned
    from inside [try] without being awaited, so its rejection is not seen
    by the [catch] clause: only what precedes the [return] is guarded. *)
Definition editWebhook (webhookID : string)
    (editWebhookRequest : EditWebhookRequest.t) : M Webhook.t :=
  existing <- try_catch (getWebhookByID webhookID) (rethrow "editWebhook") ;;
  _editWebhook webhookID existing editWebhookRequest.

Definition appendAddressesToWebhook (webhookID : string)
    (newAccountAddresses : list string) : M Webhook.t :=
  guarded <-
    try_catch
      (webhook <- getWebhookByID webhookID ;;
       let accountAddresses :=
         Webhook.accountAddresses webhook ++ newAccountAddresses in
       if (100000 <? Z.of_nat (length accountAddresses))%Z then
         throw (Error "a single webhook cannot contain more than 100,000 addresses")
       else
         ret (webhook, EditWebhookRequest.only_accountAddresses accountAddresses))
      (rethrow "appendAddressesToWebhook") ;;
  _editWebhook webhookID (fst guarded) (snd guarded).

(** [addressesToRemove.includes(address)] *)
Definition includes (addressesToRemove : list string) (address : string) : bool :=
  existsb (fun a => (a =? address)%string) addressesToRemove.

Definition removeAddressesFromWebhook (webhookID : string)
    (addressesToRemove : list string) : M Webhook.t :=
  guarded <-
    try_catch
      (webhook <- getWebhookByID webhookID ;;
       let accountAddresses :=
         filter (fun address => negb (includes addressesToRemove address))
                (Webhook.accountAddresses webhook) in
       ret (webhook, EditWebhookRequest.only_accountAddresses accountAddresses))
      (rethrow "removeAddressesFromWebhook") ;;
  _editWebhook webhookID (fst guarded) (snd guarded).

Definition getMintlist (request : js_opt MintlistRequest.t)
  : M MintlistResponse.t :=
  match request with
  | defined req =>
      match MintlistRequest.query req with
      | defined q =>
          if negb (is_nullish (CollectionIdentifier.firstVerifiedCreators q)) &&
             negb (is_nullish (CollectionIdentifier.verifiedCollectionAddresses q))
          then
            throw (Error "cannot provide both firstVerifiedCreators and verifiedCollectionAddresses. Please only provide one.")
          else
            try_catch
              (url <- lift (getApiEndpoint "/v1/mintlist") ;;
               axios_post_mintlist url req)
              (rethrow "getMintlist")
      | _ => throw (Error "must provide query object.")
      end
  | _ => throw (Error "must provide query object.")
  end.

(** The body of a page request: [{ query, options: { limit: 10000 } }],
    with [paginationToken] added to the options inside the loop. *)
Definition page_request (query : CollectionIdentifier.t)
    (paginationToken : js_opt string) : MintlistRequest.t :=
  {| MintlistRequest.query := defined query;
     MintlistRequest.options :=
       defined {| HeliusOptions.limit := defined 10000%Z;
                  HeliusOptions.paginationToken := paginationToken |} |}.

(** [while (mints.paginationToken) { ... }]; each iteration uses one unit
    of [fuel]. *)
Fixpoint drain_loop (fuel : nat) (query : CollectionIdentifier.t)
    (mints : MintlistResponse.t) (mintlist : list MintlistItem.t)
  : M (list MintlistItem.t) :=
  if truthy (MintlistResponse.paginationToken mints) then
    match fuel with
    | O => out_of_fuel
    | S fuel' =>
        mints' <- getMintlist
                    (defined (page_request query
                                (MintlistResponse.paginationToken mints))) ;;
        drain_loop fuel' query mints' (mintlist ++ MintlistResponse.result mints')
    end
  else ret mintlist.

(** Lines 278 to 295: the first page, then the loop. *)
Definition drain (fuel : nat) (query : CollectionIdentifier.t)
  : M (list MintlistItem.t) :=
  mints <- getMintlist (defined (page_request query undefined)) ;;
  drain_loop fuel query mints ([] ++ MintlistResponse.result mints).

(** Lines 297 to 308: the create payload. *)
Definition collection_payload (request : CreateCollectionWebhookRequest.t)
    (mintlist : list MintlistItem.t) : CreateWebhookRequest.t :=
  let webhookURL := CreateCollectionWebhookRequest.webhookURL request in
  let transactionTypes := CreateCollectionWebhookRequest.transactionTypes request in
  let authHeader := CreateCollectionWebhookRequest.authHeader request in
  let webhookType := CreateCollectionWebhookRequest.webhookType request in
  {| CreateWebhookRequest.webhookURL := webhookURL;
     CreateWebhookRequest.accountAddresses := map MintlistItem.mint mintlist;
     CreateWebhookRequest.transactionTypes := transactionTypes;
     CreateWebhookRequest.accountAddressOwners := undefined;
     CreateWebhookRequest.authHeader :=
       if truthy authHeader then authHeader else undefined;
     CreateWebhookRequest.webhookType :=
       if truthy webhookType then webhookType else undefined;
     CreateWebhookRequest.txnStatus := undefined;
     CreateWebhookRequest.encoding := undefined |}.

(** [query = { firstVerifiedCreators }] or
    [query = { verifiedCollectionAddresses }]. *)
Definition collection_query (collectionQuery : CollectionIdentifier.t)
  : CollectionIdentifier.t :=
  let firstVerifiedCreators :=
    CollectionIdentifier.firstVerifiedCreators collectionQuery in
  let verifiedCollectionAddresses :=
    CollectionIdentifier.verifiedCollectionAddresses collectionQuery in
  if negb (is_nullish firstVerifiedCreators) then
    {| CollectionIdentifier.firstVerifiedCreators := firstVerifiedCreators;
       CollectionIdentifier.verifiedCollectionAddresses := undefined |}
  else
    {| CollectionIdentifier.firstVerifiedCreators := undefined;
       CollectionIdentifier.verifiedCollectionAddresses :=
         verifiedCollectionAddresses |}.

Definition createCollectionWebhook (fuel : nat)
    (request : js_opt CreateCollectionWebhookRequest.t) : M Webhook.t :=
  match request with
  | defined req =>
      match CreateCollectionWebhookRequest.collectionQuery req with
      | defined collectionQuery =>
          if negb (is_nullish
                     (CollectionIdentifier.firstVerifiedCreators collectionQuery)) &&
             negb (is_nullish
                     (CollectionIdentifier.verifiedCollectionAddresses collectionQuery))
          then
            throw (Error "cannot provide both firstVerifiedCreators and verifiedCollectionAddresses. Please only provide one.")
          else
            let query := collection_query collectionQuery in
            try_catch
              (mintlist <- drain fuel query ;;
               createWebhook (collection_payload req mintlist))
              (rethrow "createCollectionWebhook")
      | _ => throw (Error "must provide collectionQuery object.")
      end
  | _ => throw (Error "must provide collectionQuery object.")
  end.

End Methods.

(** ** Vocabulary of the properties *)

(** The instance went through the constructor: its API key is a non-empty
    string. *)
Definition configured (this : Helius) : Prop := truthy (apiKey this) = true.

Definition api_url (this : Helius) (path : string) : string :=
  (HeliusEndpoints.api (endpoints this) ++ path ++ "?api-key=" ++
   template (apiKey this))%string.

Definition mintlist_url (this : Helius) : string := api_url this "/v1/mintlist".

Definition webhooks_url (this : Helius) : string := api_url this "/v0/webhooks".

Definition webhook_url (this : Helius) (webhookID : string) : string :=
  api_url this ("/v0/webhooks/" ++ webhookID)%string.

(** Both selector kinds are set, as the two validations test it. *)
Definition both_selectors (q : CollectionIdentifier.t) : bool :=
  negb (is_nullish (CollectionIdentifier.firstVerifiedCreators q)) &&
  negb (is_nullish (CollectionIdentifier.verifiedCollectionAddresses q)).

(** Neither selector kind is set. *)
Definition no_selector (q : CollectionIdentifier.t) : bool :=
  is_nullish (CollectionIdentifier.firstVerifiedCreators q) &&
  is_nullish (CollectionIdentifier.verifiedCollectionAddresses q).

(** The page requests that fetch [pages] one after the other, the first
    one carrying [token], each later one the token of the page before. *)
Fixpoint page_calls (this : Helius) (query : CollectionIdentifier.t)
    (token : js_opt string) (pages : list MintlistResponse.t) : trace :=
  match pages with
  | [] => []
  | p :: ps =>
      HttpPostMintlist (mintlist_url this) (page_request query token)
        :: page_calls this query (MintlistResponse.paginationToken p) ps
  end.

(** The token the request after [pages] carries. *)
Fixpoint next_token (token : js_opt string) (pages : list MintlistResponse.t)
  : js_opt string :=
  match pages with
  | [] => token
  | p :: ps => next_token (MintlistResponse.paginationToken p) ps
  end.

(** From history [t] on, the remote answers the successive page requests
    with [pages], in order. *)
Fixpoint pages_served (this : Helius) (remote : Remote)
    (query : CollectionIdentifier.t) (token : js_opt string) (t : trace)
    (pages : list MintlistResponse.t) : Prop :=
  match pages with
  | [] => True
  | p :: ps =>
      on_post_mintlist remote t (mintlist_url this) (page_request query token)
        = inr p /\
      pages_served this remote query (MintlistResponse.paginationToken p)
        (t ++ [HttpPostMintlist (mintlist_url this) (page_request query token)]) ps
  end.

(** Every page carries a token. *)
Definition all_with_token (pages : list MintlistResponse.t) : Prop :=
  Forall (fun p => truthy (MintlistResponse.paginationToken p) = true) pages.

(** Every page but the last one carries a token, and the last one none. *)
Fixpoint last_without_token (page : MintlistResponse.t)
    (rest : list MintlistResponse.t) : Prop :=
  match rest with
  | [] => truthy (MintlistResponse.paginationToken page) = false
  | p :: ps =>
      truthy (MintlistResponse.paginationToken page) = true /\
      last_without_token p ps
  end.

Definition items_of (pages : list MintlistResponse.t) : list MintlistItem.t :=
  concat (map MintlistResponse.result pages).

Definition is_write_call (c : http_call) : bool :=
  match c with
  | HttpPut _ _ => true
  | HttpPostWebhook _ _ => true
  | _ => false
  end.

Definition capacity_exceeded : exn :=
  Error "error during appendAddressesToWebhook: Error: a single webhook cannot contain more than 100,000 addresses".

(** The address list [removeAddressesFromWebhook] computes. *)
Definition remaining_addresses (existing addressesToRemove : list string)
  : list string :=
  filter (fun address => negb (includes addressesToRemove address)) existing.

(** Every run of [m] leaves the earlier calls in place and adds only calls
    that satisfy [P]. *)
Definition adds_only (P : http_call -> Prop) {A : Type} (m : M A) : Prop :=
  forall t, exists added, snd (m t) = t ++ added /\ Forall P added.

Definition is_page_call (c : http_call) : Prop :=
  match c with
  | HttpPostMintlist _ _ => True
  | _ => False
  end.

(** [request?.collectionQuery] and [request?.query] *)
Definition collectionQuery_of (request : js_opt CreateCollectionWebhookRequest.t)
  : js_opt CollectionIdentifier.t :=
  match request with
  | defined req => CreateCollectionWebhookRequest.collectionQuery req
  | _ => undefined
  end.

Definition query_of (request : js_opt MintlistRequest.t)
  : js_opt CollectionIdentifier.t :=
  match request with
  | defined req => MintlistRequest.query req
  | _ => undefined
  end.

(** The query object is absent, or both selector kinds are set. *)
Definition absent_or_both (q : js_opt CollectionIdentifier.t) : Prop :=
  is_nullish q = true \/ exists q', q = defined q' /\ both_selectors q' = true.

(** The run throws and has issued no call. *)
Definition fails_before_any_call {A : Type} (m : M A) (t : trace) : Prop :=
  exists e, m t = (Threw e, t).

(** A merged field holds the caller's value when the caller provided one,
    and the fallback otherwise. *)
Definition caller_else_existing {A : Type} (caller merged existing : js_opt A)
  : Prop :=
  (forall v, caller = defined v -> merged = defined v) /\
  (is_nullish caller = true -> merged = existing).

(** An optional field is sent only with the non-empty value the caller
    supplied, and is otherwise absent from the payload. *)
Definition sent_only_if_supplied (supplied sent : js_opt string) : Prop :=
  (forall v, sent = defined v -> supplied = defined v /\ v <> ""%string) /\
  (truthy supplied = true -> sent = supplied) /\
  (truthy supplied = false -> sent = undefined) /\
  sent <> null.

(** The request with the four fields the method never reads replaced. *)
Definition with_unread_fields (req : CreateCollectionWebhookRequest.t)
    (accountAddresses : list string) (accountAddressOwners : js_opt (list string))
    (txnStatus : js_opt TxnStatus) (encoding : js_opt AccountWebhookEncoding)
  : CreateCollectionWebhookRequest.t :=
  {| CreateCollectionWebhookRequest.webhookURL :=
       CreateCollectionWebhookRequest.webhookURL req;
     CreateCollectionWebhookRequest.transactionTypes :=
       CreateCollectionWebhookRequest.transactionTypes req;
     CreateCollectionWebhookRequest.accountAddresses := accountAddresses;
     CreateCollectionWebhookRequest.accountAddressOwners := accountAddressOwners;
     CreateCollectionWebhookRequest.webhookType :=
       CreateCollectionWebhookRequest.webhookType req;
     CreateCollectionWebhookRequest.authHeader :=
       CreateCollectionWebhookRequest.authHeader req;
     CreateCollectionWebhookRequest.txnStatus := txnStatus;
     CreateCollectionWebhookRequest.encoding := encoding;
     CreateCollectionWebhookRequest.collectionQuery :=
       CreateCollectionWebhookRequest.collectionQuery req |}.

(** ** A small concrete service

    A configured client and two scripted remotes on which the properties
    below are exercised. *)

Module Sample.

Definition helius : Helius :=
  {| apiKey := defined "k3y";
     endpoints := {| HeliusEndpoints.api := "https://api.example";
                     HeliusEndpoints.rpc := "https://rpc.example" |} |}.

Definition item (mint : string) : MintlistItem.t :=
  {| MintlistItem.mint := mint; MintlistItem.name := "nft" |}.

Definition page1 : MintlistResponse.t :=
  {| MintlistResponse.result := [item "mintA"; item "mintB"];
     MintlistResponse.paginationToken := defined "p2" |}.

Definition page2 : MintlistResponse.t :=
  {| MintlistResponse.result := [item "mintC"];
     MintlistResponse.paginationToken := undefined |}.

Definition stored : Webhook.t :=
  {| Webhook.webhookID := "wh1";
     Webhook.wallet := "wallet";
     Webhook.project := "project";
     Webhook.webhookURL := "https://hook.example";
     Webhook.transactionTypes := ["NFT_SALE"];
     Webhook.accountAddresses := ["addr1"; "addr2"; "addr1"];
     Webhook.accountAddressOwners := undefined;
     Webhook.webhookType := defined "enhanced";
     Webhook.authHeader := undefined;
     Webhook.txnStatus := undefined;
     Webhook.encoding := undefined |}.

Definition created (body : CreateWebhookRequest.t) : Webhook.t :=
  {| Webhook.webhookID := "wh2";
     Webhook.wallet := "wallet";
     Webhook.project := "project";
     Webhook.webhookURL := CreateWebhookRequest.webhookURL body;
     Webhook.transactionTypes := CreateWebhookRequest.transactionTypes body;
     Webhook.accountAddresses := CreateWebhookRequest.accountAddresses body;
     Webhook.accountAddressOwners := CreateWebhookRequest.accountAddressOwners body;
     Webhook.webhookType := CreateWebhookRequest.webhookType body;
     Webhook.authHeader := CreateWebhookRequest.authHeader body;
     Webhook.txnStatus := CreateWebhookRequest.txnStatus body;
     Webhook.encoding := CreateWebhookRequest.encoding body |}.

Definition replaced (body : EditWebhookRequest.t) : Webhook.t :=
  {| Webhook.webhookID := "wh1";
     Webhook.wallet := "wallet";
     Webhook.project := "project";
     Webhook.webhookURL := "https://hook.example";
     Webhook.transactionTypes := ["NFT_SALE"];
     Webhook.accountAddresses :=
       match EditWebhookRequest.accountAddresses body with
       | defined l => l
       | _ => []
       end;
     Webhook.accountAddressOwners := EditWebhookRequest.accountAddressOwners body;
     Webhook.webhookType := EditWebhookRequest.webhookType body;
     Webhook.authHeader := EditWebhookRequest.authHeader body;
     Webhook.txnStatus := EditWebhookRequest.txnStatus body;
     Webhook.encoding := EditWebhookRequest.encoding body |}.

(** The token a page request carries. *)
Definition token_of (body : MintlistRequest.t) : js_opt string :=
  match MintlistRequest.options body with
  | defined o => HeliusOptions.paginationToken o
  | _ => undefined
  end.

(** Serves [page1] to a request without token and [page2] to any other. *)
Definition remote : Remote :=
  {| on_get := fun _ _ => inr stored;
     on_post_mintlist := fun _ _ body =>
       if truthy (token_of body) then inr page2 else inr page1;
     on_post_webhook := fun _ _ body => inr (created body);
     on_put := fun _ _ body => inr (replaced body) |}.

Definition unavailable : exn :=
  AxiosError "Request failed with status code 503"
    (defined (JsString "unavailable")).

(** Serves [page1], then rejects the request for the second page. *)
Definition failing_remote : Remote :=
  {| on_get := fun _ _ => inr stored;
     on_post_mintlist := fun _ _ body =>
       if truthy (token_of body) then inl unavailable else inr page1;
     on_post_webhook := fun _ _ body => inr (created body);
     on_put := fun _ _ body => inr (replaced body) |}.

(** A single page whose token is the empty string. *)
Definition page_empty_token : MintlistResponse.t :=
  {| MintlistResponse.result := [item "mintA"];
     MintlistResponse.paginationToken := defined "" |}.

(** Serves [page_empty_token] to every page request. *)
Definition empty_token_remote : Remote :=
  {| on_get := fun _ _ => inr stored;
     on_post_mintlist := fun _ _ _ => inr page_empty_token;
     on_post_webhook := fun _ _ body => inr (created body);
     on_put := fun _ _ body => inr (replaced body) |}.

(** A webhook that holds exactly 100,000 addresses. *)
Definition full : Webhook.t :=
  {| Webhook.webhookID := "wh3";
     Webhook.wallet := "wallet";
     Webhook.project := "project";
     Webhook.webhookURL := "https://hook.example";
     Webhook.transactionTypes := ["NFT_SALE"];
     Webhook.accountAddresses := repeat "addr" (Z.to_nat 100000);
     Webhook.accountAddressOwners := undefined;
     Webhook.webhookType := undefined;
     Webhook.authHeader := undefined;
     Webhook.txnStatus := undefined;
     Webhook.encoding := undefined |}.

Definition full_remote : Remote :=
  {| on_get := fun _ _ => inr full;
     on_post_mintlist := fun _ _ _ => inr page2;
     on_post_webhook := fun _ _ body => inr (created body);
     on_put := fun _ _ body => inr (replaced body) |}.

(** A partial edit that sets the transaction types only. *)
Definition edit_types : EditWebhookRequest.t :=
  {| EditWebhookRequest.webhookURL := undefined;
     EditWebhookRequest.transactionTypes := defined ["NFT_MINT"];
     EditWebhookRequest.accountAddresses := undefined;
     EditWebhookRequest.accountAddressOwners := undefined;
     EditWebhookRequest.webhookType := undefined;
     EditWebhookRequest.authHeader := undefined;
     EditWebhookRequest.txnStatus := undefined;
     EditWebhookRequest.encoding := undefined |}.

Definition by_collections : CollectionIdentifier.t :=
  {| CollectionIdentifier.firstVerifiedCreators := undefined;
     CollectionIdentifier.verifiedCollectionAddresses := defined ["col1"; "col2"] |}.

Definition no_selectors : CollectionIdentifier.t :=
  {| CollectionIdentifier.firstVerifiedCreators := undefined;
     CollectionIdentifier.verifiedCollectionAddresses := undefined |}.

Definition collection_request (q : CollectionIdentifier.t)
  : CreateCollectionWebhookRequest.t :=
  {| CreateCollectionWebhookRequest.webhookURL := "https://hook.example";
     CreateCollectionWebhookRequest.transactionTypes := ["NFT_SALE"];
     CreateCollectionWebhookRequest.accountAddresses := ["ignored"];
     CreateCollectionWebhookRequest.accountAddressOwners := defined ["owner"];
     CreateCollectionWebhookRequest.webhookType := defined "enhanced";
     CreateCollectionWebhookRequest.authHeader := undefined;
     CreateCollectionWebhookRequest.txnStatus := defined "all";
     CreateCollectionWebhookRequest.encoding := defined "jsonParsed";
     CreateCollectionWebhookRequest.collectionQuery := defined q |}.

End Sample.

(** ** The other methods of the class *)

(** The catch clause of [getAllWebhooks], which says "calling" where the
    other methods say "during". *)
Definition rethrow_calling (op : string) (err : exn) : exn :=
  if isAxiosError err then
    Error ("error calling " ++ op ++ ": " ++
           value_or_error (response_data_error err) err)%string
  else Error ("error calling " ++ op ++ ": " ++ exn_to_string err)%string.

(** [getAllWebhooks]; [on_get_all] is the remote's answer to the listing. *)
Definition getAllWebhooks (this : Helius)
    (on_get_all : trace -> string -> exn + list Webhook.t)
  : M (list Webhook.t) :=
  try_catch
    (url <- lift (getApiEndpoint this "/v0/webhooks") ;;
     request (HttpGet url) (fun t => on_get_all t url))
    (rethrow_calling "getWebhooks").

(** *** Methods with calls and failures of their own

    [deleteWebhook] and the JSON-RPC client issue calls that are not among
    [http_call]; they run in the same kind of monad, over their own calls
    and exceptions, and without budget since they have no loop. *)
Module Logged.

Inductive settled (exc A : Type) : Type :=
| Fulfilled (a : A)
| Rejected (e : exc).

Arguments Fulfilled {exc A} a.
Arguments Rejected {exc A} e.

Definition t (call exc A : Type) : Type := list call -> settled exc A * list call.

Definition ret {call exc A : Type} (a : A) : t call exc A :=
  fun log => (Fulfilled a, log).

Definition throw {call exc A : Type} (e : exc) : t call exc A :=
  fun log => (Rejected e, log).

Definition bind {call exc A B : Type} (m : t call exc A) (k : A -> t call exc B)
  : t call exc B :=
  fun log =>
    match m log with
    | (Fulfilled a, log') => k a log'
    | (Rejected e, log') => (Rejected e, log')
    end.

(** [try { m } catch (error) { throw handler(error) }] *)
Definition try_catch {call exc A : Type} (m : t call exc A) (handler : exc -> exc)
  : t call exc A :=
  fun log =>
    match m log with
    | (Rejected e, log') => (Rejected (handler e), log')
    | r => r
    end.

Definition lift {call exc A : Type} (r : exc + A) : t call exc A :=
  match r with
  | inl e => throw e
  | inr a => ret a
  end.

Definition request {call exc A : Type} (c : call) (answer : list call -> exc + A)
  : t call exc A :=
  fun log =>
    match answer log with
    | inl e => (Rejected e, log ++ [c])
    | inr data => (Fulfilled data, log ++ [c])
    end.

End Logged.

Inductive delete_call : Type :=
| HttpDelete (url : string).

(** [deleteWebhook]; the response of the DELETE is not looked at. *)
Definition deleteWebhook (this : Helius)
    (on_delete : list delete_call -> string -> exn + unit) (webhookID : string)
  : Logged.t delete_call exn bool :=
  Logged.try_catch
    (Logged.bind (Logged.lift (getApiEndpoint this ("/v0/webhooks/" ++ webhookID)%string))
       (fun url =>
          Logged.bind (Logged.request (HttpDelete url) (fun log => on_delete log url))
            (fun _ => Logged.ret true)))
    (rethrow "deleteWebhook").

(** *** The constructor, with every field it sets *)

Inductive HeliusCluster : Type :=
| mainnet_beta
| devnet.

Module RpcClient.
Record t := mk { url : string; id : js_opt string }.
End RpcClient.

Module HeliusObject.
Record t (MintApiAuthority : Type) := mk {
  base : Helius;
  cluster : HeliusCluster;
  endpoint : string;
  rpc : RpcClient.t;
  mintApiAuthority : MintApiAuthority
}.
Arguments base {MintApiAuthority} _.
Arguments cluster {MintApiAuthority} _.
Arguments endpoint {MintApiAuthority} _.
Arguments rpc {MintApiAuthority} _.
Arguments mintApiAuthority {MintApiAuthority} _.
End HeliusObject.

Section Constructor.

(** [getHeliusEndpoints] and [mintApiAuthority] of [./utils], which may
    throw, and the type of what the latter returns. *)
Variable MintApiAuthority : Type.
Variable getHeliusEndpoints : HeliusCluster -> exn + HeliusEndpoints.t.
Variable mintApiAuthority_of : HeliusCluster -> exn + MintApiAuthority.

(** [constructor(apiKey, cluster = 'mainnet-beta', id = 'helius-sdk')];
    [None] is an argument left out. *)
Definition Helius_constructor (apiKey : string) (cluster : option HeliusCluster)
    (id : option string) : exn + HeliusObject.t MintApiAuthority :=
  let cluster := match cluster with Some c => c | None => mainnet_beta end in
  let id := match id with Some i => i | None => "helius-sdk" end in
  match getHeliusEndpoints cluster with
  | inl e => inl e
  | inr endpoints =>
      if negb (apiKey =? "")%string then
        let endpoint := HeliusEndpoints.api endpoints in
        match mintApiAuthority_of cluster with
        | inl e => inl e
        | inr authority =>
            inr {| HeliusObject.base :=
                     {| apiKey := defined apiKey; endpoints := endpoints |};
                   HeliusObject.cluster := cluster;
                   HeliusObject.endpoint := endpoint;
                   HeliusObject.rpc :=
                     {| RpcClient.url := endpoint; RpcClient.id := defined id |};
                   HeliusObject.mintApiAuthority := authority |}
        end
      else inl (Error "either `apiKey` is required")
  end.

End Constructor.

(** ** The JSON-RPC client ([RpcClient.ts]) *)

Module Rpc.

Section Client.

(** Run-time JSON values (request parameters, results, error objects);
    the client passes them on without looking inside. *)
Variable value : Type.

(** [JSON.stringify(v, null, 2)], in a template literal. *)
Variable stringify : js_opt value -> string.

(** Truthiness of a JSON value. *)
Variable truthy_value : value -> bool.

(** What is thrown and caught: plain errors, and errors of the HTTP client
    with [response.data] when there was a response. *)
Inductive exc : Type :=
| RpcError (message : string)
| RpcAxiosError (message : string) (response_data : option (js_opt value)).

(** [`${error}`]: the name alone when the message is empty. *)
Definition to_string (error : exc) : string :=
  match error with
  | RpcError m =>
      if (m =? "")%string then "Error" else ("Error: " ++ m)%string
  | RpcAxiosError m _ =>
      if (m =? "")%string then "AxiosError" else ("AxiosError: " ++ m)%string
  end.

Inductive rpc_id : Type :=
| ClientId (id : js_opt string)
| LiteralId (n : Z).

Inductive rpc_params : Type :=
| Params (params : value)
| ParamsArray (params : list value)
| ParamsStringArrays (params : list (list string)).

Record envelope := {
  jsonrpc : string;
  id : rpc_id;
  method : string;
  params : rpc_params
}.

(** A POST of an envelope, with the [Content-Type] header when the call
    passes a configuration. *)
Inductive call : Type :=
| Post (url : string) (body : envelope) (content_type : js_opt string).

(** [response.data] of a JSON-RPC answer. *)
Record rpc_data := {
  result : js_opt value;
  error : js_opt value
}.

Definition truthy_opt (x : js_opt value) : bool :=
  match x with
  | defined v => truthy_value v
  | _ => false
  end.

Variable this : RpcClient.t.
Variable answer : list call -> call -> exc + rpc_data.

Definition axios_post (url : string) (body : envelope) (content_type : js_opt string)
  : Logged.t call exc rpc_data :=
  Logged.request (Post url body content_type)
    (fun log => answer log (Post url body content_type)).

Definition json_headers : js_opt string := defined "application/json".

(** The body the asset methods share: post the envelope to [this.url],
    return [data.result], rethrow any failure as [Error in NAME: ...]. *)
Definition das_method (method name : string) (content_type : js_opt string)
    (params : value) : Logged.t call exc (js_opt value) :=
  Logged.try_catch
    (Logged.bind
       (axios_post (RpcClient.url this)
          {| jsonrpc := "2.0";
             id := ClientId (RpcClient.id this);
             method := method;
             params := Params params |}
          content_type)
       (fun data => Logged.ret (result data)))
    (fun error => RpcError ("Error in " ++ name ++ ": " ++ to_string error)%string).

Definition getAsset := das_method "getAsset" "getAsset" json_headers.
Definition getRwaAsset := das_method "getRwaAccountsByMint" "getRwaAsset" json_headers.
Definition getAssetBatch := das_method "getAssetBatch" "getAssetBatch" undefined.
Definition getAssetProof := das_method "getAssetProof" "getAssetProof" undefined.
Definition getAssetsByGroup := das_method "getAssetsByGroup" "getAssetsByGroup" undefined.
Definition getAssetsByOwner := das_method "getAssetsByOwner" "getAssetsByOwner" undefined.
Definition getAssetsByCreator :=
  das_method "getAssetsByCreator" "getAssetsByCreator" undefined.
Definition getAssetsByAuthority :=
  das_method "getAssetsByAuthority" "getAssetsByAuthority" undefined.
Definition searchAssets := das_method "searchAssets" "searchAssets" undefined.
Definition getSignaturesForAsset :=
  das_method "getSignaturesForAsset" "getSignaturesForAsset" undefined.
Definition getNftEditions := das_method "getNftEditions" "getNftEditions" json_headers.
Definition getTokenAccounts :=
  das_method "getTokenAccounts" "getTokenAccounts" json_headers.

Definition getPriorityFeeEstimate (params : value)
  : Logged.t call exc (js_opt value) :=
  Logged.try_catch
    (Logged.bind
       (axios_post (RpcClient.url this)
          {| jsonrpc := "2.0";
             id := ClientId (RpcClient.id this);
             method := "getPriorityFeeEstimate";
             params := ParamsArray [params] |}
          json_headers)
       (fun data =>
          if truthy_opt (error data) then
            Logged.throw
              (RpcError ("Error fetching priority fee estimate: " ++
                         stringify (error data))%string)
          else Logged.ret (result data)))
    (fun error =>
       match error with
       | RpcAxiosError _ (Some response_data) =>
           RpcError ("Error fetching priority fee estimate: " ++
                     stringify response_data)%string
       | _ =>
           RpcError ("Error fetching priority fee estimate: " ++
                     to_string error)%string
       end).

Definition sendJitoBundle (serializedTransactions : list string)
    (jitoApiUrl : string) : Logged.t call exc (js_opt value) :=
  Logged.bind
    (axios_post jitoApiUrl
       {| jsonrpc := "2.0";
          id := LiteralId 1;
          method := "sendBundle";
          params := ParamsStringArrays [serializedTransactions] |}
       json_headers)
    (fun data =>
       if truthy_opt (error data) then
         Logged.throw
           (RpcError ("Error sending bundles: " ++ stringify (error data))%string)
       else Logged.ret (result data)).

Definition getBundleStatuses (bundleIds : list string) (jitoApiUrl : string)
  : Logged.t call exc (js_opt value) :=
  Logged.bind
    (axios_post jitoApiUrl
       {| jsonrpc := "2.0";
          id := LiteralId 1;
          method := "getBundleStatuses";
          params := ParamsStringArrays [bundleIds] |}
       json_headers)
    (fun data =>
       if truthy_opt (error data) then
         Logged.throw
           (RpcError ("Error getting bundle statuses: " ++
                      stringify (error data))%string)
       else Logged.ret (result data)).

(** The twelve asset methods: the method name sent, the name in the error
    message, the [Content-Type] passed, and the method. *)
Definition asset_methods
  : list (string * string * js_opt string *
          (value -> Logged.t call exc (js_opt value))) :=
  [("getAsset", "getAsset", json_headers, getAsset);
   ("getRwaAccountsByMint", "getRwaAsset", json_headers, getRwaAsset);
   ("getAssetBatch", "getAssetBatch", undefined, getAssetBatch);
   ("getAssetProof", "getAssetProof", undefined, getAssetProof);
   ("getAssetsByGroup", "getAssetsByGroup", undefined, getAssetsByGroup);
   ("getAssetsByOwner", "getAssetsByOwner", undefined, getAssetsByOwner);
   ("getAssetsByCreator", "getAssetsByCreator", undefined, getAssetsByCreator);
   ("getAssetsByAuthority", "getAssetsByAuthority", undefined,
    getAssetsByAuthority);
   ("searchAssets", "searchAssets", undefined, searchAssets);
   ("getSignaturesForAsset", "getSignaturesForAsset", undefined,
    getSignaturesForAsset);
   ("getNftEditions", "getNftEditions", json_headers, getNftEditions);
   ("getTokenAccounts", "getTokenAccounts", json_headers, getTokenAccounts)].

End Client.

Arguments RpcError {value} message.
Arguments RpcAxiosError {value} message response_data.

End Rpc.

(** ** Vocabulary of the further properties *)

(** The partial edit that sets no field. *)
Definition no_edit : EditWebhookRequest.t :=
  {| EditWebhookRequest.webhookURL := undefined;
     EditWebhookRequest.transactionTypes := undefined;
     EditWebhookRequest.accountAddresses := undefined;
     EditWebhookRequest.accountAddressOwners := undefined;
     EditWebhookRequest.webhookType := undefined;
     EditWebhookRequest.authHeader := undefined;
     EditWebhookRequest.txnStatus := undefined;
     EditWebhookRequest.encoding := undefined |}.

(** The caller-mutable fields of a webhook, with another address list. *)
Definition with_addresses (w : Webhook.t) (accountAddresses : list string)
  : EditWebhookRequest.t :=
  {| EditWebhookRequest.webhookURL := defined (Webhook.webhookURL w);
     EditWebhookRequest.transactionTypes := defined (Webhook.transactionTypes w);
     EditWebhookRequest.accountAddresses := defined accountAddresses;
     EditWebhookRequest.accountAddressOwners := Webhook.accountAddressOwners w;
     EditWebhookRequest.webhookType := Webhook.webhookType w;
     EditWebhookRequest.authHeader := Webhook.authHeader w;
     EditWebhookRequest.txnStatus := Webhook.txnStatus w;
     EditWebhookRequest.encoding := Webhook.encoding w |}.

(** Every field of the edit is provided. *)
Definition complete_edit (edit : EditWebhookRequest.t) : Prop :=
  is_nullish (EditWebhookRequest.webhookURL edit) = false /\
  is_nullish (EditWebhookRequest.transactionTypes edit) = false /\
  is_nullish (EditWebhookRequest.accountAddresses edit) = false /\
  is_nullish (EditWebhookRequest.accountAddressOwners edit) = false /\
  is_nullish (EditWebhookRequest.webhookType edit) = false /\
  is_nullish (EditWebhookRequest.authHeader edit) = false /\
  is_nullish (EditWebhookRequest.txnStatus edit) = false /\
  is_nullish (EditWebhookRequest.encoding edit) = false.

(** [path] starts with [p], said without the library's test. *)
Definition begins_with (p path : string) : Prop :=
  exists rest : string, path = (p ++ rest)%string.

(** A fetch, or a write of at most 100,000 addresses. *)
Definition fetch_or_write_within_capacity (c : http_call) : Prop :=
  match c with
  | HttpGet _ => True
  | HttpPut _ body =>
      exists l : list string,
        EditWebhookRequest.accountAddresses body = defined l /\
        (Z.of_nat (length l) <= 100000)%Z
  | _ => False
  end.

(** A page request of the collection drain for [query]: the query as it
    is, a limit of 10,000, and some token. *)
Definition drain_page_call (this : Helius) (query : CollectionIdentifier.t)
    (c : http_call) : Prop :=
  exists token : js_opt string,
    c = HttpPostMintlist (mintlist_url this) (page_request query token).

(** What the catch clauses put after the operation's name. *)
Definition failure_detail (err : exn) : string :=
  value_or_error (response_data_error err) err.

(** The remote hands out a pagination token with every page, for ever. *)
Definition always_more (this : Helius) (remote : Remote)
    (query : CollectionIdentifier.t) : Prop :=
  forall (t : trace) (token : js_opt string),
    exists page : MintlistResponse.t,
      on_post_mintlist remote t (mintlist_url this) (page_request query token)
        = inr page /\
      truthy (MintlistResponse.paginationToken page) = true.

(** The calls of the JSON-RPC client: an asset method's, the fee
    estimate's, and a bundle method's. *)
Definition asset_call {value : Type} (this : RpcClient.t) (method : string)
    (content_type : js_opt string) (params : value) : Rpc.call value :=
  Rpc.Post value (RpcClient.url this)
    {| Rpc.jsonrpc := "2.0";
       Rpc.id := Rpc.ClientId (RpcClient.id this);
       Rpc.method := method;
       Rpc.params := Rpc.Params value params |}
    content_type.

Definition fee_call {value : Type} (this : RpcClient.t) (params : value)
  : Rpc.call value :=
  Rpc.Post value (RpcClient.url this)
    {| Rpc.jsonrpc := "2.0";
       Rpc.id := Rpc.ClientId (RpcClient.id this);
       Rpc.method := "getPriorityFeeEstimate";
       Rpc.params := Rpc.ParamsArray value [params] |}
    (defined "application/json").

Definition bundle_call {value : Type} (method : string) (strings : list string)
    (jitoApiUrl : string) : Rpc.call value :=
  Rpc.Post value jitoApiUrl
    {| Rpc.jsonrpc := "2.0";
       Rpc.id := Rpc.LiteralId 1;
       Rpc.method := method;
       Rpc.params := Rpc.ParamsStringArrays value [strings] |}
    (defined "application/json").

Module Fixture.

(** A client whose key is missing, as [new Helius(undefined)] leaves it. *)
Definition keyless : Helius :=
  {| apiKey := undefined;
     endpoints := {| HeliusEndpoints.api := "https://api.example";
                     HeliusEndpoints.rpc := "https://rpc.example" |} |}.

Definition not_found : exn :=
  AxiosError "Request failed with status code 404"
    (defined (JsString "webhook not found")).

(** Knows no webhook. *)
Definition empty_remote : Remote :=
  {| on_get := fun _ _ => inl not_found;
     on_post_mintlist := fun _ _ _ => inr Sample.page2;
     on_post_webhook := fun _ _ body => inr (Sample.created body);
     on_put := fun _ _ body => inr (Sample.replaced body) |}.

(** Serves [Sample.page1], which carries a token, to every page request. *)
Definition endless_remote : Remote :=
  {| on_get := fun _ _ => inr Sample.stored;
     on_post_mintlist := fun _ _ _ => inr Sample.page1;
     on_post_webhook := fun _ _ body => inr (Sample.created body);
     on_put := fun _ _ body => inr (Sample.replaced body) |}.

Definition endpoints_of (c : HeliusCluster) : exn + HeliusEndpoints.t :=
  match c with
  | mainnet_beta =>
      inr {| HeliusEndpoints.api := "https://api.example";
             HeliusEndpoints.rpc := "https://rpc.example" |}
  | devnet =>
      inr {| HeliusEndpoints.api := "https://api-devnet.example";
             HeliusEndpoints.rpc := "https://rpc-devnet.example" |}
  end.

Definition authority_of (c : HeliusCluster) : exn + string :=
  match c with
  | mainnet_beta => inr "authority-mainnet"
  | devnet => inr "authority-devnet"
  end.

(** A JSON-RPC service over strings as values: it answers every call with
    an error object and no result. *)
Definition rpc_client : RpcClient.t :=
  {| RpcClient.url := "https://api.example"; RpcClient.id := defined "helius-sdk" |}.

Definition rpc_stringify (v : js_opt string) : string := template v.

Definition rpc_truthy (v : string) : bool := negb (v =? "")%string.

Definition rpc_refusing
    (log : list (Rpc.call string)) (c : Rpc.call string)
  : Rpc.exc string + Rpc.rpc_data string :=
  inr {| Rpc.result := undefined; Rpc.error := defined "method not found" |}.

(** The same service when it cannot be reached: every call is rejected,
    with a response body. *)
Definition rpc_unreachable
    (log : list (Rpc.call string)) (c : Rpc.call string)
  : Rpc.exc string + Rpc.rpc_data string :=
  inl (Rpc.RpcAxiosError "Request failed with status code 429"
         (Some (defined "rate limited"))).

End Fixture.

(** ** Basic facts *)

Section Facts.

Variable this : Helius.
Variable remote : Remote.
Hypothesis Hkey : configured this.

Lemma getApiEndpoint_mintlist :
  getApiEndpoint this "/v1/mintlist" = inr (mintlist_url this).
Proof.
  unfold getApiEndpoint, mintlist_url, api_url.
  rewrite Hkey. reflexivity.
Qed.

Lemma getApiEndpoint_webhooks :
  getApiEndpoint this "/v0/webhooks" = inr (webhooks_url this).
Proof.
  unfold getApiEndpoint, webhooks_url, api_url.
  rewrite Hkey. reflexivity.
Qed.

Lemma getApiEndpoint_webhook (webhookID : string) :
  getApiEndpoint this ("/v0/webhooks/" ++ webhookID)%string
  = inr (webhook_url this webhookID).
Proof.
  unfold getApiEndpoint, webhook_url, api_url.
  rewrite Hkey. reflexivity.
Qed.

Lemma getWebhookByID_run (webhookID : string) (t : trace) :
  getWebhookByID this remote webhookID t =
  match on_get remote t (webhook_url this webhookID) with
  | inl e => (Threw (rethrow "getWebhookByID" e),
              t ++ [HttpGet (webhook_url this webhookID)])
  | inr w => (Returned w, t ++ [HttpGet (webhook_url this webhookID)])
  end.
Proof.
  unfold getWebhookByID, try_catch, bind.
  rewrite getApiEndpoint_webhook. simpl.
  unfold axios_get, request.
  destruct (on_get remote t (webhook_url this webhookID)); reflexivity.
Qed.

Lemma createWebhook_run (payload : CreateWebhookRequest.t) (t : trace) :
  createWebhook this remote payload t =
  match on_post_webhook remote t (webhooks_url this) payload with
  | inl e => (Threw (rethrow "createWebhook" e),
              t ++ [HttpPostWebhook (webhooks_url this) payload])
  | inr w => (Returned w, t ++ [HttpPostWebhook (webhooks_url this) payload])
  end.
Proof.
  unfold createWebhook, try_catch, bind.
  rewrite getApiEndpoint_webhooks. simpl.
  unfold axios_post_webhook, request.
  destruct (on_post_webhook remote t (webhooks_url this) payload); reflexivity.
Qed.

Lemma _editWebhook_run (webhookID : string) (existing : Webhook.t)
    (edit : EditWebhookRequest.t) (t : trace) :
  _editWebhook this remote webhookID existing edit t =
  match on_put remote t (webhook_url this webhookID)
          (editRequest_of existing edit) with
  | inl e => (Threw e,
              t ++ [HttpPut (webhook_url this webhookID)
                      (editRequest_of existing edit)])
  | inr w => (Returned w,
              t ++ [HttpPut (webhook_url this webhookID)
                      (editRequest_of existing edit)])
  end.
Proof.
  unfold _editWebhook, bind.
  rewrite getApiEndpoint_webhook. simpl.
  unfold axios_put, request. reflexivity.
Qed.

Lemma getMintlist_run (query : CollectionIdentifier.t)
    (options : js_opt HeliusOptions.t) (t : trace) :
  both_selectors query = false ->
  getMintlist this remote
    (defined {| MintlistRequest.query := defined query;
                MintlistRequest.options := options |}) t =
  let body := {| MintlistRequest.query := defined query;
                 MintlistRequest.options := options |} in
  match on_post_mintlist remote t (mintlist_url this) body with
  | inl e => (Threw (rethrow "getMintlist" e),
              t ++ [HttpPostMintlist (mintlist_url this) body])
  | inr page => (Returned page,
                 t ++ [HttpPostMintlist (mintlist_url this) body])
  end.
Proof.
  unfold both_selectors. intros Hq.
  unfold getMintlist. cbn [MintlistRequest.query]. rewrite Hq.
  unfold try_catch, bind. rewrite getApiEndpoint_mintlist. simpl.
  unfold axios_post_mintlist, request.
  destruct (on_post_mintlist remote t (mintlist_url this) _); reflexivity.
Qed.

End Facts.

(** ** The pagination loop *)

Section Drain.

Variable this : Helius.
Variable remote : Remote.
Hypothesis Hkey : configured this.

Variable query : CollectionIdentifier.t.
Hypothesis Hquery : both_selectors query = false.

Lemma page_request_run (token : js_opt string) (t : trace) :
  getMintlist this remote (defined (page_request query token)) t =
  match on_post_mintlist remote t (mintlist_url this) (page_request query token) with
  | inl e => (Threw (rethrow "getMintlist" e),
              t ++ [HttpPostMintlist (mintlist_url this) (page_request query token)])
  | inr page => (Returned page,
                 t ++ [HttpPostMintlist (mintlist_url this) (page_request query token)])
  end.
Proof.
  unfold page_request. rewrite (getMintlist_run this remote Hkey query _ t Hquery).
  reflexivity.
Qed.

Lemma drain_loop_stops (fuel : nat) (mints : MintlistResponse.t)
    (mintlist : list MintlistItem.t) (t : trace) :
  truthy (MintlistResponse.paginationToken mints) = false ->
  drain_loop this remote fuel query mints mintlist t = (Returned mintlist, t).
Proof.
  intros Hfalsy. destruct fuel; simpl; rewrite Hfalsy; reflexivity.
Qed.

Lemma drain_loop_continues (fuel : nat) (mints : MintlistResponse.t)
    (mintlist : list MintlistItem.t) (t : trace) :
  truthy (MintlistResponse.paginationToken mints) = true ->
  drain_loop this remote (S fuel) query mints mintlist t =
  (mints' <- getMintlist this remote
               (defined (page_request query (MintlistResponse.paginationToken mints))) ;;
   drain_loop this remote fuel query mints'
     (mintlist ++ MintlistResponse.result mints')) t.
Proof.
  intros Htruthy. simpl. rewrite Htruthy. reflexivity.
Qed.

Lemma drain_loop_served :
  forall (rest : list MintlistResponse.t) (page : MintlistResponse.t)
         (fuel : nat) (mintlist : list MintlistItem.t) (t : trace),
    pages_served this remote query (MintlistResponse.paginationToken page) t rest ->
    last_without_token page rest ->
    length rest <= fuel ->
    drain_loop this remote fuel query page mintlist t =
    (Returned (mintlist ++ items_of rest),
     t ++ page_calls this query (MintlistResponse.paginationToken page) rest).
Proof.
  induction rest as [| p ps IH]; intros page fuel mintlist t Hserved Hchain Hfuel.
  - simpl in Hchain. rewrite drain_loop_stops by assumption.
    unfold items_of. simpl. now rewrite !app_nil_r.
  - destruct Hchain as [Htruthy Hchain]. destruct Hserved as [Hpage Hserved].
    destruct fuel as [| fuel]; [simpl in Hfuel; lia |].
    rewrite drain_loop_continues by assumption.
    unfold bind. rewrite page_request_run, Hpage.
    rewrite (IH p fuel _ _ Hserved Hchain) by (simpl in Hfuel; lia).
    unfold items_of. simpl. now rewrite <- !app_assoc.
Qed.

Lemma drain_served (page : MintlistResponse.t) (rest : list MintlistResponse.t)
    (fuel : nat) (t : trace) :
  pages_served this remote query undefined t (page :: rest) ->
  last_without_token page rest ->
  length rest <= fuel ->
  drain this remote fuel query t =
  (Returned (items_of (page :: rest)),
   t ++ page_calls this query undefined (page :: rest)).
Proof.
  intros [Hpage Hserved] Hchain Hfuel.
  unfold drain, bind. rewrite page_request_run, Hpage.
  rewrite (drain_loop_served rest page fuel _ _ Hserved Hchain Hfuel).
  unfold items_of. simpl. now rewrite <- app_assoc.
Qed.

(** Conversely, a loop that returns has been served a chain of pages that
    ends with the first page without token. *)
Lemma drain_loop_returned :
  forall (fuel : nat) (page : MintlistResponse.t)
         (mintlist l : list MintlistItem.t) (t t' : trace),
    drain_loop this remote fuel query page mintlist t = (Returned l, t') ->
    exists rest : list MintlistResponse.t,
      pages_served this remote query (MintlistResponse.paginationToken page) t rest
      /\ last_without_token page rest
      /\ length rest <= fuel
      /\ l = mintlist ++ items_of rest
      /\ t' = t ++ page_calls this query (MintlistResponse.paginationToken page) rest.
Proof.
  induction fuel as [| fuel IH]; intros page mintlist l t t' Hrun;
    destruct (truthy (MintlistResponse.paginationToken page)) eqn:Htoken.
  - simpl in Hrun. rewrite Htoken in Hrun. discriminate.
  - rewrite drain_loop_stops in Hrun by assumption.
    injection Hrun as <- <-. exists []. simpl.
    unfold items_of. simpl. rewrite !app_nil_r. auto.
  - rewrite drain_loop_continues in Hrun by assumption.
    unfold bind in Hrun. rewrite page_request_run in Hrun.
    destruct (on_post_mintlist remote t (mintlist_url this) _) as [e | p] eqn:Hpage;
      [discriminate |].
    destruct (IH p _ l _ t' Hrun) as [rest [Hserved [Hlast [Hlen [Hl Ht]]]]].
    exists (p :: rest). simpl. repeat split; auto.
    + lia.
    + rewrite Hl. unfold items_of. simpl. now rewrite <- app_assoc.
    + rewrite Ht. now rewrite <- app_assoc.
  - rewrite drain_loop_stops in Hrun by assumption.
    injection Hrun as <- <-. exists []. simpl.
    unfold items_of. simpl. rewrite !app_nil_r. repeat split; auto. lia.
Qed.

Lemma drain_returned (fuel : nat) (l : list MintlistItem.t) (t t' : trace) :
  drain this remote fuel query t = (Returned l, t') ->
  exists (page : MintlistResponse.t) (rest : list MintlistResponse.t),
    pages_served this remote query undefined t (page :: rest)
    /\ last_without_token page rest
    /\ length rest <= fuel
    /\ l = items_of (page :: rest)
    /\ t' = t ++ page_calls this query undefined (page :: rest).
Proof.
  unfold drain, bind. rewrite page_request_run.
  destruct (on_post_mintlist remote t (mintlist_url this) _) as [e | page] eqn:Hpage;
    [discriminate |].
  intros Hrun.
  destruct (drain_loop_returned fuel page _ l _ t' Hrun)
    as [rest [Hserved [Hlast [Hlen [Hl Ht]]]]].
  exists page, rest. simpl. repeat split; auto.
  rewrite Ht. now rewrite <- app_assoc.
Qed.

(** A failing page request ends the loop with the wrapped failure. *)
Lemma drain_loop_fails :
  forall (served : list MintlistResponse.t) (page : MintlistResponse.t)
         (fuel : nat) (mintlist : list MintlistItem.t) (t : trace) (e : exn),
    pages_served this remote query (MintlistResponse.paginationToken page) t served ->
    all_with_token (page :: served) ->
    on_post_mintlist remote
      (t ++ page_calls this query (MintlistResponse.paginationToken page) served)
      (mintlist_url this)
      (page_request query
         (next_token (MintlistResponse.paginationToken page) served)) = inl e ->
    length served < fuel ->
    drain_loop this remote fuel query page mintlist t =
    (Threw (rethrow "getMintlist" e),
     t ++ page_calls this query (MintlistResponse.paginationToken page) served
       ++ [HttpPostMintlist (mintlist_url this)
             (page_request query
                (next_token (MintlistResponse.paginationToken page) served))]).
Proof.
  induction served as [| p ps IH]; intros page fuel mintlist t e Hserved Hall Hfail Hfuel.
  - destruct fuel as [| fuel]; [simpl in Hfuel; lia |].
    inversion Hall as [| ? ? Htruthy _]; subst.
    rewrite drain_loop_continues by assumption.
    simpl in Hfail. rewrite app_nil_r in Hfail.
    unfold bind. rewrite page_request_run, Hfail. reflexivity.
  - destruct fuel as [| fuel]; [simpl in Hfuel; lia |].
    inversion Hall as [| ? ? Htruthy Hall']; subst.
    destruct Hserved as [Hpage Hserved].
    rewrite drain_loop_continues by assumption.
    unfold bind. rewrite page_request_run, Hpage.
    simpl in Hfail.
    assert (Hfail' :
      on_post_mintlist remote
        ((t ++ [HttpPostMintlist (mintlist_url this)
                  (page_request query (MintlistResponse.paginationToken page))])
           ++ page_calls this query (MintlistResponse.paginationToken p) ps)
        (mintlist_url this)
        (page_request query (next_token (MintlistResponse.paginationToken p) ps))
      = inl e).
    { rewrite <- app_assoc. simpl. exact Hfail. }
    rewrite (IH p fuel _ _ e Hserved Hall' Hfail') by (simpl in Hfuel; lia).
    simpl. now rewrite <- !app_assoc.
Qed.

Lemma drain_fails (served : list MintlistResponse.t) (fuel : nat) (t : trace)
    (e : exn) :
  pages_served this remote query undefined t served ->
  all_with_token served ->
  on_post_mintlist remote (t ++ page_calls this query undefined served)
    (mintlist_url this) (page_request query (next_token undefined served)) = inl e ->
  length served <= fuel ->
  drain this remote fuel query t =
  (Threw (rethrow "getMintlist" e),
   t ++ page_calls this query undefined served
     ++ [HttpPostMintlist (mintlist_url this)
           (page_request query (next_token undefined served))]).
Proof.
  intros Hserved Hall Hfail Hfuel. unfold drain, bind.
  destruct served as [| page served].
  - simpl in Hfail. rewrite app_nil_r in Hfail.
    rewrite page_request_run, Hfail. reflexivity.
  - destruct Hserved as [Hpage Hserved].
    rewrite page_request_run, Hpage.
    simpl in Hfail.
    assert (Hfail' :
      on_post_mintlist remote
        ((t ++ [HttpPostMintlist (mintlist_url this) (page_request query undefined)])
           ++ page_calls this query (MintlistResponse.paginationToken page) served)
        (mintlist_url this)
        (page_request query (next_token (MintlistResponse.paginationToken page) served))
      = inl e).
    { rewrite <- app_assoc. simpl. exact Hfail. }
    rewrite (drain_loop_fails served page fuel _ _ e Hserved Hall Hfail')
      by (simpl in Hfuel; lia).
    simpl. now rewrite <- !app_assoc.
Qed.

End Drain.

(** ** What a run adds to the log *)

Section AddsOnly.

Variable P : http_call -> Prop.

Lemma adds_only_ret {A : Type} (a : A) : adds_only P (ret a).
Proof. intros t. exists []. simpl. now rewrite app_nil_r. Qed.

Lemma adds_only_throw {A : Type} (e : exn) : adds_only P (@throw A e).
Proof. intros t. exists []. simpl. now rewrite app_nil_r. Qed.

Lemma adds_only_out_of_fuel {A : Type} : adds_only P (@out_of_fuel A).
Proof. intros t. exists []. simpl. now rewrite app_nil_r. Qed.

Lemma adds_only_lift {A : Type} (r : exn + A) : adds_only P (lift r).
Proof. destruct r; [apply adds_only_throw | apply adds_only_ret]. Qed.

Lemma adds_only_request {A : Type} (c : http_call) (answer : trace -> exn + A) :
  P c -> adds_only P (request c answer).
Proof.
  intros Hc t. exists [c]. unfold request.
  destruct (answer t); simpl; auto.
Qed.

Lemma adds_only_bind {A B : Type} (m : M A) (k : A -> M B) :
  adds_only P m -> (forall a, adds_only P (k a)) -> adds_only P (bind m k).
Proof.
  intros Hm Hk t. unfold bind.
  destruct (Hm t) as [added1 [E1 F1]].
  destruct (m t) as [[a | e |] t1]; simpl in E1; subst t1.
  - destruct (Hk a (t ++ added1)) as [added2 [E2 F2]].
    exists (added1 ++ added2). rewrite E2, app_assoc. split; [reflexivity |].
    apply Forall_app; auto.
  - exists added1. auto.
  - exists added1. auto.
Qed.

Lemma adds_only_try_catch {A : Type} (m : M A) (handler : exn -> exn) :
  adds_only P m -> adds_only P (try_catch m handler).
Proof.
  intros Hm t. unfold try_catch.
  destruct (Hm t) as [added [E F]].
  destruct (m t) as [[a | e |] t1]; simpl in *; exists added; auto.
Qed.

End AddsOnly.

Lemma getMintlist_adds_only (this : Helius) (remote : Remote)
    (request : js_opt MintlistRequest.t) :
  adds_only is_page_call (getMintlist this remote request).
Proof.
  unfold getMintlist.
  destruct request as [| | req]; try apply adds_only_throw.
  destruct (MintlistRequest.query req) as [| | q]; try apply adds_only_throw.
  destruct (_ && _); [apply adds_only_throw |].
  apply adds_only_try_catch, adds_only_bind; [apply adds_only_lift |].
  intros url. apply adds_only_request. exact I.
Qed.

Lemma drain_loop_adds_only (this : Helius) (remote : Remote)
    (query : CollectionIdentifier.t) :
  forall (fuel : nat) (mints : MintlistResponse.t) (mintlist : list MintlistItem.t),
    adds_only is_page_call (drain_loop this remote fuel query mints mintlist).
Proof.
  induction fuel as [| fuel IH]; intros mints mintlist; cbn [drain_loop];
    destruct (truthy (MintlistResponse.paginationToken mints));
    try apply adds_only_ret; try apply adds_only_out_of_fuel.
  apply adds_only_bind; [apply getMintlist_adds_only |].
  intros mints'. apply IH.
Qed.

Lemma drain_adds_only (this : Helius) (remote : Remote) (fuel : nat)
    (query : CollectionIdentifier.t) :
  adds_only is_page_call (drain this remote fuel query).
Proof.
  unfold drain. apply adds_only_bind; [apply getMintlist_adds_only |].
  intros mints. apply drain_loop_adds_only.
Qed.

Lemma createWebhook_adds_only (P : http_call -> Prop) (this : Helius)
    (remote : Remote) (payload : CreateWebhookRequest.t) :
  (forall url, P (HttpPostWebhook url payload)) ->
  adds_only P (createWebhook this remote payload).
Proof.
  intros HP. unfold createWebhook.
  apply adds_only_try_catch, adds_only_bind; [apply adds_only_lift |].
  intros url. apply adds_only_request. apply HP.
Qed.

Lemma adds_only_weaken (P Q : http_call -> Prop) {A : Type} (m : M A) :
  (forall c, P c -> Q c) -> adds_only P m -> adds_only Q m.
Proof.
  intros HPQ Hm t. destruct (Hm t) as [added [E F]].
  exists added. split; [exact E |].
  eapply Forall_impl; eauto.
Qed.

Lemma app_cons_neq {A : Type} (t added : list A) (c : A) : t ++ c :: added <> t.
Proof.
  intros E. apply (f_equal (@length A)) in E.
  rewrite length_app in E. simpl in E. lia.
Qed.

(** ** Validation *)

Lemma collection_query_valid (collectionQuery : CollectionIdentifier.t) :
  both_selectors (collection_query collectionQuery) = false.
Proof.
  unfold both_selectors, collection_query.
  destruct (CollectionIdentifier.firstVerifiedCreators collectionQuery);
    simpl; try reflexivity;
    destruct (CollectionIdentifier.verifiedCollectionAddresses collectionQuery);
    reflexivity.
Qed.

Lemma no_selector_not_both (q : CollectionIdentifier.t) :
  no_selector q = true -> both_selectors q = false.
Proof.
  unfold no_selector, both_selectors.
  destruct (CollectionIdentifier.firstVerifiedCreators q); simpl;
    try reflexivity; discriminate.
Qed.

Lemma new_Helius_configured (apiKey : string) (endpoints : HeliusEndpoints.t)
    (this : Helius) :
  new_Helius apiKey endpoints = inr this -> configured this.
Proof.
  unfold new_Helius, configured.
  destruct (negb (apiKey =? "")%string) eqn:E; [| discriminate].
  intros H. injection H as <-. exact E.
Qed.

Section Validation.

Variable this : Helius.
Variable remote : Remote.
Hypothesis Hkey : configured this.

Lemma createCollectionWebhook_valid (fuel : nat)
    (req : CreateCollectionWebhookRequest.t) (cq : CollectionIdentifier.t)
    (t : trace) :
  CreateCollectionWebhookRequest.collectionQuery req = defined cq ->
  both_selectors cq = false ->
  createCollectionWebhook this remote fuel (defined req) t =
  try_catch
    (mintlist <- drain this remote fuel (collection_query cq) ;;
     createWebhook this remote (collection_payload req mintlist))
    (rethrow "createCollectionWebhook") t.
Proof.
  unfold both_selectors. intros Hcq Hboth.
  unfold createCollectionWebhook. rewrite Hcq, Hboth. reflexivity.
Qed.

Lemma drain_first_call (fuel : nat) (query : CollectionIdentifier.t) (t : trace) :
  both_selectors query = false ->
  exists added,
    snd (drain this remote fuel query t) =
    t ++ HttpPostMintlist (mintlist_url this) (page_request query undefined) :: added.
Proof.
  intros Hq. unfold drain, bind.
  rewrite (page_request_run this remote Hkey query Hq).
  destruct (on_post_mintlist remote t (mintlist_url this) _) as [e | page].
  - exists []. reflexivity.
  - destruct (drain_loop_adds_only this remote query fuel page
                ([] ++ MintlistResponse.result page)
                (t ++ [HttpPostMintlist (mintlist_url this)
                         (page_request query undefined)]))
      as [added [E _]].
    exists added. rewrite E, <- app_assoc. reflexivity.
Qed.

Lemma createCollectionWebhook_first_call (fuel : nat)
    (req : CreateCollectionWebhookRequest.t) (cq : CollectionIdentifier.t)
    (t : trace) :
  CreateCollectionWebhookRequest.collectionQuery req = defined cq ->
  both_selectors cq = false ->
  exists added,
    snd (createCollectionWebhook this remote fuel (defined req) t) =
    t ++ HttpPostMintlist (mintlist_url this)
           (page_request (collection_query cq) undefined) :: added.
Proof.
  intros Hcq Hboth.
  rewrite (createCollectionWebhook_valid fuel req cq t Hcq Hboth).
  unfold try_catch, bind.
  destruct (drain_first_call fuel (collection_query cq) t
              (collection_query_valid cq)) as [added E].
  destruct (drain this remote fuel (collection_query cq) t)
    as [[mintlist | e |] t1]; simpl in E; subst t1.
  - destruct (createWebhook_adds_only (fun _ => True) this remote
                (collection_payload req mintlist) (fun _ => I)
                (t ++ HttpPostMintlist (mintlist_url this)
                        (page_request (collection_query cq) undefined) :: added))
      as [added' [E' _]].
    exists (added ++ added').
    destruct (createWebhook this remote _ _) as [[w | e |] t2];
      simpl in E'; subst t2; simpl; now rewrite <- app_assoc.
  - exists added. reflexivity.
  - exists added. reflexivity.
Qed.

End Validation.

(** ** Wrapped failures *)

Lemma rethrow_twice (op op' : string) (e : exn) :
  rethrow op (rethrow op' e) =
  Error ("error during " ++ op ++ ": " ++ exn_to_string (rethrow op' e))%string.
Proof. destruct e; reflexivity. Qed.

Lemma page_calls_length (this : Helius) (query : CollectionIdentifier.t) :
  forall (pages : list MintlistResponse.t) (token : js_opt string),
    length (page_calls this query token pages) = length pages.
Proof.
  induction pages as [| p ps IH]; intros token; simpl; [reflexivity |].
  now rewrite IH.
Qed.

Lemma page_calls_are_page_calls (this : Helius) (query : CollectionIdentifier.t) :
  forall (pages : list MintlistResponse.t) (token : js_opt string),
    Forall (fun c => is_write_call c = false) (page_calls this query token pages).
Proof.
  induction pages as [| p ps IH]; intros token; simpl; constructor; auto.
Qed.

Lemma items_of_length (pages : list MintlistResponse.t) :
  length (items_of pages) =
  list_sum (map (fun p => length (MintlistResponse.result p)) pages).
Proof.
  unfold items_of. induction pages as [| p ps IH]; simpl; [reflexivity |].
  now rewrite length_app, IH.
Qed.

(** ** The properties of the specification *)

(** C1. A drain whose pages are served one after the other, every page but
    the last carrying a pagination token, returns the concatenation of the
    pages' items in page order.  It issues exactly the page requests of
    those pages, the first without token and each later one with the token
    of the page before, and none after the page without token; so the
    aggregated length is the sum of the page sizes and there is one request
    per page.  Every drain that returns is of this kind. *)
Theorem drain_concatenates_pages :
  forall (this : Helius) (remote : Remote) (query : CollectionIdentifier.t)
         (fuel : nat) (t : trace),
    configured this ->
    both_selectors query = false ->
    (forall (page : MintlistResponse.t) (rest : list MintlistResponse.t),
       pages_served this remote query undefined t (page :: rest) ->
       last_without_token page rest ->
       length rest <= fuel ->
       drain this remote fuel query t =
         (Returned (items_of (page :: rest)),
          t ++ page_calls this query undefined (page :: rest))
       /\ items_of (page :: rest) =
          MintlistResponse.result page ++ items_of rest
       /\ length (items_of (page :: rest)) =
          list_sum (map (fun p => length (MintlistResponse.result p)) (page :: rest))
       /\ length (page_calls this query undefined (page :: rest)) =
          length (page :: rest))
    /\
    (forall (mintlist : list MintlistItem.t) (t' : trace),
       drain this remote fuel query t = (Returned mintlist, t') ->
       exists (page : MintlistResponse.t) (rest : list MintlistResponse.t),
         pages_served this remote query undefined t (page :: rest)
         /\ last_without_token page rest
         /\ mintlist = items_of (page :: rest)
         /\ t' = t ++ page_calls this query undefined (page :: rest)).
Proof.
  intros this remote query fuel t Hkey Hquery. split.
  - intros page rest Hserved Hlast Hfuel.
    split; [| split; [| split]].
    + now apply drain_served.
    + reflexivity.
    + apply items_of_length.
    + apply page_calls_length.
  - intros mintlist t' Hrun.
    destruct (drain_returned this remote Hkey query Hquery fuel mintlist t t' Hrun)
      as [page [rest [Hserved [Hlast [_ [Hl Ht]]]]]].
    exists page, rest. auto.
Qed.

Lemma drain_concatenates_pages_witness :
  drain Sample.helius Sample.remote 1 Sample.by_collections [] =
    (Returned (items_of [Sample.page1; Sample.page2]),
     [] ++ page_calls Sample.helius Sample.by_collections undefined
             [Sample.page1; Sample.page2])
  /\ items_of [Sample.page1; Sample.page2] =
     MintlistResponse.result Sample.page1 ++ items_of [Sample.page2]
  /\ length (items_of [Sample.page1; Sample.page2]) =
     list_sum (map (fun p => length (MintlistResponse.result p))
                 [Sample.page1; Sample.page2])
  /\ length (page_calls Sample.helius Sample.by_collections undefined
               [Sample.page1; Sample.page2]) =
     length [Sample.page1; Sample.page2].
Proof.
  apply (proj1 (drain_concatenates_pages Sample.helius Sample.remote
                  Sample.by_collections 1 [] eq_refl eq_refl)
           Sample.page1 [Sample.page2]).
  - simpl. repeat split; reflexivity.
  - simpl. split; reflexivity.
  - simpl. lia.
Defined.

(** *** Appending addresses *)

Lemma append_guard_run (this : Helius) (remote : Remote) (webhookID : string)
    (newAccountAddresses : list string) (t : trace) (webhook : Webhook.t) :
  configured this ->
  on_get remote t (webhook_url this webhookID) = inr webhook ->
  appendAddressesToWebhook this remote webhookID newAccountAddresses t =
  if (100000 <?
      Z.of_nat (length (Webhook.accountAddresses webhook ++ newAccountAddresses)))%Z
  then (Threw capacity_exceeded, t ++ [HttpGet (webhook_url this webhookID)])
  else
    _editWebhook this remote webhookID webhook
      (EditWebhookRequest.only_accountAddresses
         (Webhook.accountAddresses webhook ++ newAccountAddresses))
      (t ++ [HttpGet (webhook_url this webhookID)]).
Proof.
  intros Hkey Hget.
  unfold appendAddressesToWebhook, bind, try_catch.
  rewrite (getWebhookByID_run this remote Hkey), Hget.
  destruct (100000 <? _)%Z; reflexivity.
Qed.

(** C2. Once the webhook is fetched, appending fails with the capacity
    error, having issued no call but the fetch, when the existing list
    followed by the additions is longer than 100,000; otherwise, 100,000
    included, the edit is written with exactly that concatenation as its
    address list and the operation returns what the write returns. *)
Theorem append_respects_capacity :
  forall (this : Helius) (remote : Remote) (webhookID : string)
         (newAccountAddresses : list string) (t : trace) (webhook : Webhook.t),
    configured this ->
    on_get remote t (webhook_url this webhookID) = inr webhook ->
    ((100000 <
      Z.of_nat (length (Webhook.accountAddresses webhook ++ newAccountAddresses)))%Z ->
     appendAddressesToWebhook this remote webhookID newAccountAddresses t =
       (Threw capacity_exceeded, t ++ [HttpGet (webhook_url this webhookID)])
     /\ Forall (fun c => is_write_call c = false)
          [HttpGet (webhook_url this webhookID)])
    /\
    ((Z.of_nat (length (Webhook.accountAddresses webhook ++ newAccountAddresses))
      <= 100000)%Z ->
     exists body : EditWebhookRequest.t,
       EditWebhookRequest.accountAddresses body =
         defined (Webhook.accountAddresses webhook ++ newAccountAddresses)
       /\ appendAddressesToWebhook this remote webhookID newAccountAddresses t =
          (match on_put remote (t ++ [HttpGet (webhook_url this webhookID)])
                   (webhook_url this webhookID) body with
           | inl e => Threw e
           | inr w => Returned w
           end,
           t ++ [HttpGet (webhook_url this webhookID);
                 HttpPut (webhook_url this webhookID) body])).
Proof.
  intros this remote webhookID newAccountAddresses t webhook Hkey Hget.
  rewrite (append_guard_run this remote webhookID newAccountAddresses t webhook
             Hkey Hget).
  split.
  - intros Hlong. apply Z.ltb_lt in Hlong. rewrite Hlong.
    split; [reflexivity | repeat constructor].
  - intros Hfits. apply Z.ltb_ge in Hfits. rewrite Hfits.
    exists (editRequest_of webhook
              (EditWebhookRequest.only_accountAddresses
                 (Webhook.accountAddresses webhook ++ newAccountAddresses))).
    split; [reflexivity |].
    rewrite (_editWebhook_run this remote Hkey).
    rewrite <- app_assoc. simpl.
    destruct (on_put remote _ _ _); reflexivity.
Qed.

Lemma append_respects_capacity_witness :
  exists body : EditWebhookRequest.t,
    EditWebhookRequest.accountAddresses body =
      defined (Webhook.accountAddresses Sample.stored ++ ["addr3"; "addr1"])
    /\ appendAddressesToWebhook Sample.helius Sample.remote "wh1" ["addr3"; "addr1"] [] =
       (match on_put Sample.remote ([] ++ [HttpGet (webhook_url Sample.helius "wh1")])
                (webhook_url Sample.helius "wh1") body with
        | inl e => Threw e
        | inr w => Returned w
        end,
        [] ++ [HttpGet (webhook_url Sample.helius "wh1");
               HttpPut (webhook_url Sample.helius "wh1") body]).
Proof.
  apply (proj2 (append_respects_capacity Sample.helius Sample.remote "wh1"
                  ["addr3"; "addr1"] [] Sample.stored eq_refl eq_refl)).
  simpl. lia.
Defined.

(** The two cases of the specification: 99,995 existing addresses and ten
    or five new ones. *)
Lemma append_over_capacity (this : Helius) (remote : Remote) (webhookID : string)
    (t : trace) (webhook : Webhook.t) (newAccountAddresses : list string) :
  configured this ->
  on_get remote t (webhook_url this webhookID) = inr webhook ->
  Z.of_nat (length (Webhook.accountAddresses webhook)) = 99995%Z ->
  Z.of_nat (length newAccountAddresses) = 10%Z ->
  appendAddressesToWebhook this remote webhookID newAccountAddresses t =
  (Threw capacity_exceeded, t ++ [HttpGet (webhook_url this webhookID)]).
Proof.
  intros Hkey Hget Hold Hnew.
  rewrite (append_guard_run this remote webhookID newAccountAddresses t webhook
             Hkey Hget).
  rewrite length_app, Nat2Z.inj_add, Hold, Hnew. reflexivity.
Qed.

Example append_to_full_webhook :
  appendAddressesToWebhook Sample.helius Sample.full_remote "wh3" ["one more"] [] =
  (Threw capacity_exceeded, [HttpGet (webhook_url Sample.helius "wh3")]).
Proof. vm_compute. reflexivity. Qed.

Lemma append_at_capacity (this : Helius) (remote : Remote) (webhookID : string)
    (t : trace) (webhook : Webhook.t) (newAccountAddresses : list string) :
  configured this ->
  on_get remote t (webhook_url this webhookID) = inr webhook ->
  Z.of_nat (length (Webhook.accountAddresses webhook)) = 99995%Z ->
  Z.of_nat (length newAccountAddresses) = 5%Z ->
  snd (appendAddressesToWebhook this remote webhookID newAccountAddresses t) =
  t ++ [HttpGet (webhook_url this webhookID);
        HttpPut (webhook_url this webhookID)
          (editRequest_of webhook
             (EditWebhookRequest.only_accountAddresses
                (Webhook.accountAddresses webhook ++ newAccountAddresses)))].
Proof.
  intros Hkey Hget Hold Hnew.
  rewrite (append_guard_run this remote webhookID newAccountAddresses t webhook
             Hkey Hget).
  rewrite length_app, Nat2Z.inj_add, Hold, Hnew. simpl Z.ltb. cbv iota.
  rewrite (_editWebhook_run this remote Hkey), <- app_assoc.
  destruct (on_put remote _ _ _); reflexivity.
Qed.

(** *** The edit merger *)

Lemma nullish_coalesce_fallback {A : Type} (caller existing : js_opt A) :
  caller_else_existing caller (caller ?? existing) existing.
Proof.
  split.
  - intros v ->. reflexivity.
  - destruct caller; simpl; [reflexivity | reflexivity | discriminate].
Qed.

(** C3. [_editWebhook] sends, in a single write, a payload in which each of
    the eight caller-mutable fields holds the caller's value when provided
    and the existing record's value otherwise; a field the partial edit
    leaves out passes through unchanged, and the three fields every webhook
    has (URL, transaction types, addresses) are always populated. *)
Theorem edit_merge_falls_back :
  forall (this : Helius) (remote : Remote) (webhookID : string)
         (existing : Webhook.t) (edit : EditWebhookRequest.t) (t : trace),
    configured this ->
    let merged := editRequest_of existing edit in
    snd (_editWebhook this remote webhookID existing edit t) =
      t ++ [HttpPut (webhook_url this webhookID) merged]
    /\ caller_else_existing (EditWebhookRequest.webhookURL edit)
         (EditWebhookRequest.webhookURL merged)
         (defined (Webhook.webhookURL existing))
    /\ caller_else_existing (EditWebhookRequest.transactionTypes edit)
         (EditWebhookRequest.transactionTypes merged)
         (defined (Webhook.transactionTypes existing))
    /\ caller_else_existing (EditWebhookRequest.accountAddresses edit)
         (EditWebhookRequest.accountAddresses merged)
         (defined (Webhook.accountAddresses existing))
    /\ caller_else_existing (EditWebhookRequest.accountAddressOwners edit)
         (EditWebhookRequest.accountAddressOwners merged)
         (Webhook.accountAddressOwners existing)
    /\ caller_else_existing (EditWebhookRequest.webhookType edit)
         (EditWebhookRequest.webhookType merged)
         (Webhook.webhookType existing)
    /\ caller_else_existing (EditWebhookRequest.authHeader edit)
         (EditWebhookRequest.authHeader merged)
         (Webhook.authHeader existing)
    /\ caller_else_existing (EditWebhookRequest.txnStatus edit)
         (EditWebhookRequest.txnStatus merged)
         (Webhook.txnStatus existing)
    /\ caller_else_existing (EditWebhookRequest.encoding edit)
         (EditWebhookRequest.encoding merged)
         (Webhook.encoding existing)
    /\ is_nullish (EditWebhookRequest.webhookURL merged) = false
    /\ is_nullish (EditWebhookRequest.transactionTypes merged) = false
    /\ is_nullish (EditWebhookRequest.accountAddresses merged) = false.
Proof.
  intros this remote webhookID existing edit t Hkey merged.
  split.
  { rewrite (_editWebhook_run this remote Hkey).
    destruct (on_put remote _ _ _); reflexivity. }
  subst merged. unfold editRequest_of. cbn [EditWebhookRequest.webhookURL
    EditWebhookRequest.transactionTypes EditWebhookRequest.accountAddresses
    EditWebhookRequest.accountAddressOwners EditWebhookRequest.webhookType
    EditWebhookRequest.authHeader EditWebhookRequest.txnStatus
    EditWebhookRequest.encoding].
  repeat (split; [apply nullish_coalesce_fallback |]).
  destruct (EditWebhookRequest.webhookURL edit),
    (EditWebhookRequest.transactionTypes edit),
    (EditWebhookRequest.accountAddresses edit); repeat split.
Qed.

Lemma edit_merge_falls_back_witness :
  snd (_editWebhook Sample.helius Sample.remote "wh1" Sample.stored
         Sample.edit_types []) =
    [] ++ [HttpPut (webhook_url Sample.helius "wh1")
             (editRequest_of Sample.stored Sample.edit_types)]
  /\ editRequest_of Sample.stored Sample.edit_types =
     {| EditWebhookRequest.webhookURL := defined "https://hook.example";
        EditWebhookRequest.transactionTypes := defined ["NFT_MINT"];
        EditWebhookRequest.accountAddresses := defined ["addr1"; "addr2"; "addr1"];
        EditWebhookRequest.accountAddressOwners := undefined;
        EditWebhookRequest.webhookType := defined "enhanced";
        EditWebhookRequest.authHeader := undefined;
        EditWebhookRequest.txnStatus := undefined;
        EditWebhookRequest.encoding := undefined |}.
Proof.
  split.
  - exact (proj1 (edit_merge_falls_back Sample.helius Sample.remote "wh1"
                    Sample.stored Sample.edit_types [] eq_refl)).
  - reflexivity.
Defined.

(** *** Removing addresses *)

Lemma includes_In (addressesToRemove : list string) (address : string) :
  includes addressesToRemove address = true <-> In address addressesToRemove.
Proof.
  unfold includes. rewrite existsb_exists. split.
  - intros [a [Hin Heq]]. apply String.eqb_eq in Heq. now subst.
  - intros Hin. exists address. split; [exact Hin | apply String.eqb_refl].
Qed.

Lemma remaining_addresses_In (existing addressesToRemove : list string)
    (address : string) :
  In address (remaining_addresses existing addressesToRemove) <->
  In address existing /\ ~ In address addressesToRemove.
Proof.
  unfold remaining_addresses. rewrite filter_In, negb_true_iff.
  rewrite <- (includes_In addressesToRemove address).
  destruct (includes addressesToRemove address); split; intros [H1 H2].
  - discriminate.
  - exfalso. now apply H2.
  - split; [exact H1 | discriminate].
  - split; [exact H1 | reflexivity].
Qed.

Lemma remaining_addresses_absent (existing addressesToRemove : list string) :
  (forall a, In a addressesToRemove -> ~ In a existing) ->
  remaining_addresses existing addressesToRemove = existing.
Proof.
  intros Habsent. unfold remaining_addresses.
  induction existing as [| a l IH]; simpl; [reflexivity |].
  destruct (includes addressesToRemove a) eqn:E; simpl.
  - apply includes_In in E. exfalso. apply (Habsent a E). now left.
  - f_equal. apply IH. intros b Hb Hin. apply (Habsent b Hb). now right.
Qed.

Lemma remaining_addresses_all (existing addressesToRemove : list string) :
  (forall a, In a existing -> In a addressesToRemove) ->
  remaining_addresses existing addressesToRemove = [].
Proof.
  intros Hall. unfold remaining_addresses.
  induction existing as [| a l IH]; simpl; [reflexivity |].
  assert (E : includes addressesToRemove a = true).
  { apply includes_In, Hall. now left. }
  rewrite E. simpl. apply IH. intros b Hb. apply Hall. now right.
Qed.

Lemma remaining_addresses_idempotent (existing addressesToRemove : list string) :
  remaining_addresses (remaining_addresses existing addressesToRemove)
    addressesToRemove
  = remaining_addresses existing addressesToRemove.
Proof.
  apply remaining_addresses_absent.
  intros a Hremove Hin. apply remaining_addresses_In in Hin. tauto.
Qed.

Lemma remove_run (this : Helius) (remote : Remote) (webhookID : string)
    (addressesToRemove : list string) (t : trace) (webhook : Webhook.t) :
  configured this ->
  on_get remote t (webhook_url this webhookID) = inr webhook ->
  removeAddressesFromWebhook this remote webhookID addressesToRemove t =
  (match on_put remote (t ++ [HttpGet (webhook_url this webhookID)])
           (webhook_url this webhookID)
           (editRequest_of webhook
              (EditWebhookRequest.only_accountAddresses
                 (remaining_addresses (Webhook.accountAddresses webhook)
                    addressesToRemove))) with
   | inl e => Threw e
   | inr w => Returned w
   end,
   t ++ [HttpGet (webhook_url this webhookID);
         HttpPut (webhook_url this webhookID)
           (editRequest_of webhook
              (EditWebhookRequest.only_accountAddresses
                 (remaining_addresses (Webhook.accountAddresses webhook)
                    addressesToRemove)))]).
Proof.
  intros Hkey Hget.
  unfold removeAddressesFromWebhook, bind, try_catch.
  rewrite (getWebhookByID_run this remote Hkey), Hget.
  unfold ret. cbn [fst snd].
  rewrite (_editWebhook_run this remote Hkey), <- app_assoc.
  unfold remaining_addresses.
  destruct (on_put remote _ _ _); reflexivity.
Qed.

(** C6. Once the webhook is fetched, removal writes the existing list
    filtered to the addresses that do not occur in the removal list, and
    fails only if the write does.  Removing addresses that are not in the
    list leaves it unchanged, removing all of them leaves the empty list,
    and a second removal of the same addresses, run on the webhook as the
    first one wrote it, writes the same list again. *)
Theorem remove_filters_addresses :
  forall (this : Helius) (remote : Remote) (webhookID : string)
         (addressesToRemove : list string) (t : trace) (webhook : Webhook.t),
    configured this ->
    on_get remote t (webhook_url this webhookID) = inr webhook ->
    let existing := Webhook.accountAddresses webhook in
    let remaining := remaining_addresses existing addressesToRemove in
    let body :=
      editRequest_of webhook (EditWebhookRequest.only_accountAddresses remaining) in
    removeAddressesFromWebhook this remote webhookID addressesToRemove t =
      (match on_put remote (t ++ [HttpGet (webhook_url this webhookID)])
               (webhook_url this webhookID) body with
       | inl e => Threw e
       | inr w => Returned w
       end,
       t ++ [HttpGet (webhook_url this webhookID);
             HttpPut (webhook_url this webhookID) body])
    /\ EditWebhookRequest.accountAddresses body = defined remaining
    /\ remaining =
       filter (fun a => if in_dec string_dec a addressesToRemove then false else true)
         existing
    /\ ((forall a, In a addressesToRemove -> ~ In a existing) ->
        remaining = existing)
    /\ ((forall a, In a existing -> In a addressesToRemove) -> remaining = [])
    /\ remaining_addresses remaining addressesToRemove = remaining
    /\ (forall (t2 : trace) (webhook2 : Webhook.t),
          on_get remote t2 (webhook_url this webhookID) = inr webhook2 ->
          Webhook.accountAddresses webhook2 = remaining ->
          exists body2 : EditWebhookRequest.t,
            EditWebhookRequest.accountAddresses body2 = defined remaining /\
            snd (removeAddressesFromWebhook this remote webhookID
                   addressesToRemove t2) =
            t2 ++ [HttpGet (webhook_url this webhookID);
                   HttpPut (webhook_url this webhookID) body2]).
Proof.
  intros this remote webhookID addressesToRemove t webhook Hkey Hget
         existing remaining body.
  split; [| split; [| split; [| split; [| split; [| split]]]]].
  - apply remove_run; assumption.
  - reflexivity.
  - subst remaining. unfold remaining_addresses. apply filter_ext.
    intros a. destruct (in_dec string_dec a addressesToRemove) as [Hin | Hout].
    + apply includes_In in Hin. now rewrite Hin.
    + destruct (includes addressesToRemove a) eqn:E; [| reflexivity].
      apply includes_In in E. contradiction.
  - apply remaining_addresses_absent.
  - apply remaining_addresses_all.
  - apply remaining_addresses_idempotent.
  - intros t2 webhook2 Hget2 Hsame.
    exists (editRequest_of webhook2
              (EditWebhookRequest.only_accountAddresses
                 (remaining_addresses (Webhook.accountAddresses webhook2)
                    addressesToRemove))).
    split.
    + cbn. rewrite Hsame. subst remaining.
      now rewrite remaining_addresses_idempotent.
    + rewrite (remove_run this remote webhookID addressesToRemove t2 webhook2
                 Hkey Hget2). reflexivity.
Qed.

Lemma remove_filters_addresses_witness :
  removeAddressesFromWebhook Sample.helius Sample.remote "wh1" ["addr1"; "gone"] [] =
    (Returned
       (Sample.replaced
          (editRequest_of Sample.stored
             (EditWebhookRequest.only_accountAddresses ["addr2"]))),
     [HttpGet (webhook_url Sample.helius "wh1");
      HttpPut (webhook_url Sample.helius "wh1")
        (editRequest_of Sample.stored
           (EditWebhookRequest.only_accountAddresses ["addr2"]))]).
Proof.
  exact (proj1 (remove_filters_addresses Sample.helius Sample.remote "wh1"
                  ["addr1"; "gone"] [] Sample.stored eq_refl eq_refl)).
Defined.

(** *** The collection webhook *)

Lemma truthy_sent_only_if_supplied (supplied : js_opt string) :
  sent_only_if_supplied supplied (if truthy supplied then supplied else undefined).
Proof.
  unfold sent_only_if_supplied.
  destruct supplied as [| | s]; simpl;
    try (split; [| split; [| split]]; congruence).
  destruct (s =? "")%string eqn:E; simpl;
    (split; [| split; [| split]]; try congruence).
  intros v Hv. injection Hv as <-. split; [reflexivity |].
  intros ->. discriminate.
Qed.

(** C7. When the drain completes, the create call that follows it carries
    as address list the mints of the drained items in the order of the
    drain, and carries [authHeader] and [webhookType] only with the
    non-empty value the caller supplied: left out, null or empty, the field
    is absent from the payload. *)
Theorem collection_payload_from_drain :
  forall (this : Helius) (remote : Remote) (fuel : nat)
         (req : CreateCollectionWebhookRequest.t) (cq : CollectionIdentifier.t)
         (page : MintlistResponse.t) (rest : list MintlistResponse.t) (t : trace),
    configured this ->
    CreateCollectionWebhookRequest.collectionQuery req = defined cq ->
    both_selectors cq = false ->
    pages_served this remote (collection_query cq) undefined t (page :: rest) ->
    last_without_token page rest ->
    length rest <= fuel ->
    let payload := collection_payload req (items_of (page :: rest)) in
    let drained :=
      t ++ page_calls this (collection_query cq) undefined (page :: rest) in
    createCollectionWebhook this remote fuel (defined req) t =
      (match on_post_webhook remote drained (webhooks_url this) payload with
       | inl e =>
           Threw (rethrow "createCollectionWebhook" (rethrow "createWebhook" e))
       | inr w => Returned w
       end,
       drained ++ [HttpPostWebhook (webhooks_url this) payload])
    /\ CreateWebhookRequest.accountAddresses payload =
       map MintlistItem.mint (items_of (page :: rest))
    /\ sent_only_if_supplied (CreateCollectionWebhookRequest.authHeader req)
         (CreateWebhookRequest.authHeader payload)
    /\ sent_only_if_supplied (CreateCollectionWebhookRequest.webhookType req)
         (CreateWebhookRequest.webhookType payload).
Proof.
  intros this remote fuel req cq page rest t Hkey Hcq Hboth Hserved Hlast Hfuel
         payload drained.
  split; [| split; [| split]].
  - rewrite (createCollectionWebhook_valid this remote fuel req cq t Hcq Hboth).
    unfold try_catch, bind.
    rewrite (drain_served this remote Hkey (collection_query cq)
               (collection_query_valid cq) page rest fuel t Hserved Hlast Hfuel).
    rewrite (createWebhook_run this remote Hkey).
    fold payload. fold drained.
    destruct (on_post_webhook remote drained (webhooks_url this) payload);
      reflexivity.
  - reflexivity.
  - apply truthy_sent_only_if_supplied.
  - apply truthy_sent_only_if_supplied.
Qed.

Lemma collection_payload_from_drain_witness :
  createCollectionWebhook Sample.helius Sample.remote 1
    (defined (Sample.collection_request Sample.by_collections)) [] =
  (Returned
     (Sample.created
        {| CreateWebhookRequest.webhookURL := "https://hook.example";
           CreateWebhookRequest.transactionTypes := ["NFT_SALE"];
           CreateWebhookRequest.accountAddresses := ["mintA"; "mintB"; "mintC"];
           CreateWebhookRequest.accountAddressOwners := undefined;
           CreateWebhookRequest.webhookType := defined "enhanced";
           CreateWebhookRequest.authHeader := undefined;
           CreateWebhookRequest.txnStatus := undefined;
           CreateWebhookRequest.encoding := undefined |}),
   [HttpPostMintlist (mintlist_url Sample.helius)
      (page_request Sample.by_collections undefined);
    HttpPostMintlist (mintlist_url Sample.helius)
      (page_request Sample.by_collections (defined "p2"));
    HttpPostWebhook (webhooks_url Sample.helius)
      {| CreateWebhookRequest.webhookURL := "https://hook.example";
         CreateWebhookRequest.transactionTypes := ["NFT_SALE"];
         CreateWebhookRequest.accountAddresses := ["mintA"; "mintB"; "mintC"];
         CreateWebhookRequest.accountAddressOwners := undefined;
         CreateWebhookRequest.webhookType := defined "enhanced";
         CreateWebhookRequest.authHeader := undefined;
         CreateWebhookRequest.txnStatus := undefined;
         CreateWebhookRequest.encoding := undefined |}]).
Proof.
  refine (proj1 (collection_payload_from_drain Sample.helius Sample.remote 1
                   (Sample.collection_request Sample.by_collections)
                   Sample.by_collections Sample.page1 [Sample.page2] []
                   eq_refl eq_refl eq_refl _ _ _)).
  - simpl. repeat split; reflexivity.
  - simpl. split; reflexivity.
  - simpl. lia.
Defined.

(** C8. When a page request fails, after any number of pages that were
    served, [createCollectionWebhook] throws an error that names the
    operation and wraps the failure; the items of the pages served so far
    are not returned, and the run consists of the page requests alone: no
    create call is issued. *)
Theorem failed_page_fails_collection_webhook :
  forall (this : Helius) (remote : Remote) (fuel : nat)
         (req : CreateCollectionWebhookRequest.t) (cq : CollectionIdentifier.t)
         (served : list MintlistResponse.t) (e : exn) (t : trace),
    configured this ->
    CreateCollectionWebhookRequest.collectionQuery req = defined cq ->
    both_selectors cq = false ->
    pages_served this remote (collection_query cq) undefined t served ->
    all_with_token served ->
    on_post_mintlist remote
      (t ++ page_calls this (collection_query cq) undefined served)
      (mintlist_url this)
      (page_request (collection_query cq) (next_token undefined served)) = inl e ->
    length served <= fuel ->
    let issued :=
      page_calls this (collection_query cq) undefined served
      ++ [HttpPostMintlist (mintlist_url this)
            (page_request (collection_query cq) (next_token undefined served))] in
    createCollectionWebhook this remote fuel (defined req) t =
      (Threw (Error ("error during createCollectionWebhook: " ++
                     exn_to_string (rethrow "getMintlist" e))%string),
       t ++ issued)
    /\ Forall (fun c => is_write_call c = false) issued.
Proof.
  intros this remote fuel req cq served e t Hkey Hcq Hboth Hserved Hall Hfail
         Hfuel issued.
  split.
  - rewrite (createCollectionWebhook_valid this remote fuel req cq t Hcq Hboth).
    unfold try_catch, bind.
    rewrite (drain_fails this remote Hkey (collection_query cq)
               (collection_query_valid cq) served fuel t e Hserved Hall Hfail
               Hfuel).
    rewrite rethrow_twice. reflexivity.
  - subst issued. apply Forall_app. split.
    + apply page_calls_are_page_calls.
    + repeat constructor.
Qed.

Lemma failed_page_fails_collection_webhook_witness :
  createCollectionWebhook Sample.helius Sample.failing_remote 1
    (defined (Sample.collection_request Sample.by_collections)) [] =
  (Threw (Error "error during createCollectionWebhook: Error: error during getMintlist: unavailable"),
   [HttpPostMintlist (mintlist_url Sample.helius)
      (page_request Sample.by_collections undefined);
    HttpPostMintlist (mintlist_url Sample.helius)
      (page_request Sample.by_collections (defined "p2"))]).
Proof.
  refine (proj1 (failed_page_fails_collection_webhook Sample.helius
                   Sample.failing_remote 1
                   (Sample.collection_request Sample.by_collections)
                   Sample.by_collections [Sample.page1] Sample.unavailable []
                   eq_refl eq_refl eq_refl _ _ eq_refl _)).
  - simpl. repeat split; reflexivity.
  - repeat constructor.
  - simpl. lia.
Defined.

(** C9. The loop tests the token for truthiness: a page whose token is
    undefined, null or the empty string ends the loop at once, whatever
    budget is left, with the items accumulated so far as the result and no
    further request; and these three are the only tokens that end it. *)
Theorem falsy_token_ends_drain :
  forall (this : Helius) (remote : Remote) (fuel : nat)
         (query : CollectionIdentifier.t) (items mintlist : list MintlistItem.t)
         (t : trace),
    drain_loop this remote fuel query
      {| MintlistResponse.result := items;
         MintlistResponse.paginationToken := defined ""%string |} mintlist t
    = (Returned mintlist, t)
    /\ drain_loop this remote fuel query
         {| MintlistResponse.result := items;
            MintlistResponse.paginationToken := undefined |} mintlist t
       = (Returned mintlist, t)
    /\ drain_loop this remote fuel query
         {| MintlistResponse.result := items;
            MintlistResponse.paginationToken := null |} mintlist t
       = (Returned mintlist, t)
    /\ (forall token : js_opt string,
          truthy token = false <->
          token = undefined \/ token = null \/ token = defined ""%string)
    /\ (forall token : js_opt string,
          truthy token = true ->
          drain_loop this remote (S fuel) query
            {| MintlistResponse.result := items;
               MintlistResponse.paginationToken := token |} mintlist t
          = (mints' <- getMintlist this remote
                         (defined (page_request query token)) ;;
             drain_loop this remote fuel query mints'
               (mintlist ++ MintlistResponse.result mints')) t).
Proof.
  intros this remote fuel query items mintlist t.
  split; [| split; [| split; [| split]]].
  - destruct fuel; reflexivity.
  - destruct fuel; reflexivity.
  - destruct fuel; reflexivity.
  - intros token. destruct token as [| | s]; simpl.
    + split; auto.
    + split; auto.
    + rewrite negb_false_iff, String.eqb_eq. split.
      * intros ->. auto.
      * intros [H | [H | H]]; try discriminate. now injection H.
  - intros token Htruthy. simpl. now rewrite Htruthy.
Qed.

Example empty_token_single_page :
  createCollectionWebhook Sample.helius Sample.empty_token_remote 0
    (defined (Sample.collection_request Sample.by_collections)) [] =
  (Returned
     (Sample.created
        (collection_payload (Sample.collection_request Sample.by_collections)
           [Sample.item "mintA"])),
   [HttpPostMintlist (mintlist_url Sample.helius)
      (page_request Sample.by_collections undefined);
    HttpPostWebhook (webhooks_url Sample.helius)
      (collection_payload (Sample.collection_request Sample.by_collections)
         [Sample.item "mintA"])]).
Proof. vm_compute. reflexivity. Qed.

Lemma getApiEndpoint_keyless (this : Helius) (path : string) :
  truthy (apiKey this) = false ->
  startsWith path "/v0" = true \/ startsWith path "/v1" = true ->
  getApiEndpoint this path = inl (Error "API key is not set").
Proof.
  intros Hkey Hpath. unfold getApiEndpoint. rewrite Hkey.
  destruct Hpath as [-> | ->]; cbn [negb andb]; try reflexivity.
  destruct (startsWith path "/v0"); reflexivity.
Qed.

Lemma getApiEndpoint_inr (this : Helius) (path url : string) :
  getApiEndpoint this path = inr url -> url = api_url this path.
Proof.
  unfold getApiEndpoint, api_url.
  destruct (_ && _); [discriminate |].
  destruct (negb (truthy (apiKey this))); [discriminate |].
  intros H. now injection H.
Qed.

Lemma page_request_adds_page_call (this : Helius) (remote : Remote)
    (query : CollectionIdentifier.t) (token : js_opt string) :
  adds_only (drain_page_call this query)
    (getMintlist this remote (defined (page_request query token))).
Proof.
  unfold getMintlist. cbn [MintlistRequest.query page_request].
  destruct (_ && _); [apply adds_only_throw |].
  apply adds_only_try_catch.
  intros t. unfold bind.
  destruct (getApiEndpoint this "/v1/mintlist") as [e | url] eqn:Hurl; simpl.
  - exists []. rewrite app_nil_r. auto.
  - apply getApiEndpoint_inr in Hurl. subst url.
    apply adds_only_request. now exists token.
Qed.

Lemma drain_loop_adds_page_calls (this : Helius) (remote : Remote)
    (query : CollectionIdentifier.t) :
  forall (fuel : nat) (mints : MintlistResponse.t) (mintlist : list MintlistItem.t),
    adds_only (drain_page_call this query)
      (drain_loop this remote fuel query mints mintlist).
Proof.
  induction fuel as [| fuel IH]; intros mints mintlist; cbn [drain_loop];
    destruct (truthy (MintlistResponse.paginationToken mints));
    try apply adds_only_ret; try apply adds_only_out_of_fuel.
  apply adds_only_bind; [apply page_request_adds_page_call |].
  intros mints'. apply IH.
Qed.

Lemma drain_adds_page_calls (this : Helius) (remote : Remote) (fuel : nat)
    (query : CollectionIdentifier.t) :
  adds_only (drain_page_call this query) (drain this remote fuel query).
Proof.
  unfold drain. apply adds_only_bind; [apply page_request_adds_page_call |].
  intros mints. apply drain_loop_adds_page_calls.
Qed.

Lemma createWebhook_log (this : Helius) (remote : Remote)
    (payload : CreateWebhookRequest.t) (t : trace) :
  snd (createWebhook this remote payload t) = t \/
  snd (createWebhook this remote payload t) =
  t ++ [HttpPostWebhook (webhooks_url this) payload].
Proof.
  unfold createWebhook, try_catch, bind.
  destruct (getApiEndpoint this "/v0/webhooks") as [e | url] eqn:Hurl; simpl.
  - now left.
  - apply getApiEndpoint_inr in Hurl. subst url. right.
    unfold axios_post_webhook, request.
    destruct (on_post_webhook remote t _ payload); reflexivity.
Qed.

Lemma drain_keyless (this : Helius) (remote : Remote) (fuel : nat)
    (query : CollectionIdentifier.t) (t : trace) :
  truthy (apiKey this) = false ->
  both_selectors query = false ->
  exists e, drain this remote fuel query t = (Threw e, t).
Proof.
  intros Hkey Hquery. unfold both_selectors in Hquery.
  unfold drain, bind, getMintlist. cbn [MintlistRequest.query page_request].
  rewrite Hquery. unfold try_catch, bind.
  rewrite (getApiEndpoint_keyless this _ Hkey) by (right; reflexivity).
  eexists. reflexivity.
Qed.

(** The calls of any run on a request with a query object: page requests
    for the one query, then nothing, or the create call for the items of
    the pages that these requests were served. *)
Lemma collection_run_log (this : Helius) (remote : Remote) (fuel : nat)
    (req : CreateCollectionWebhookRequest.t) (cq : CollectionIdentifier.t)
    (t : trace) :
  CreateCollectionWebhookRequest.collectionQuery req = defined cq ->
  exists (pages creates : trace),
    snd (createCollectionWebhook this remote fuel (defined req) t)
      = t ++ pages ++ creates
    /\ Forall (drain_page_call this (collection_query cq)) pages
    /\ (creates = [] \/
        exists (page : MintlistResponse.t) (rest : list MintlistResponse.t),
          pages_served this remote (collection_query cq) undefined t (page :: rest)
          /\ last_without_token page rest
          /\ pages = page_calls this (collection_query cq) undefined (page :: rest)
          /\ creates = [HttpPostWebhook (webhooks_url this)
                          (collection_payload req (items_of (page :: rest)))]).
Proof.
  intros Hcq. unfold createCollectionWebhook. rewrite Hcq.
  destruct (_ && _).
  { exists [], []. simpl. rewrite app_nil_r. auto. }
  cbv zeta. unfold try_catch, bind.
  destruct (truthy (apiKey this)) eqn:Hkey.
  - destruct (drain_adds_page_calls this remote fuel (collection_query cq) t)
      as [pages [Hpages Hall]].
    destruct (drain this remote fuel (collection_query cq) t)
      as [[mintlist | e |] t1] eqn:Hdrain; simpl in Hpages; subst t1.
    + destruct (drain_returned this remote Hkey (collection_query cq)
                  (collection_query_valid cq) fuel mintlist t _ Hdrain)
        as [page [rest [Hserved [Hlast [_ [Hl Ht]]]]]].
      apply app_inv_head in Ht. subst mintlist pages.
      rewrite (createWebhook_run this remote Hkey).
      exists (page_calls this (collection_query cq) undefined (page :: rest)),
             [HttpPostWebhook (webhooks_url this)
                (collection_payload req (items_of (page :: rest)))].
      split.
      * destruct (on_post_webhook remote _ _ _); simpl; now rewrite <- app_assoc.
      * split; [exact Hall |]. right. exists page, rest. auto.
    + exists pages, []. simpl. rewrite app_nil_r. auto.
    + exists pages, []. simpl. rewrite app_nil_r. auto.
  - destruct (drain_keyless this remote fuel (collection_query cq) t Hkey
                (collection_query_valid cq)) as [e Hdrain].
    rewrite Hdrain. exists [], []. simpl. rewrite app_nil_r. auto.
Qed.

(** C10. The whole run of [createCollectionWebhook], outcome and calls, is
    the same whatever the request holds in [accountAddresses],
    [accountAddressOwners], [txnStatus] and [encoding].  The payload it
    builds holds the request's URL and transaction types, the mints of the
    list, [authHeader] and [webhookType] when they are truthy, and nothing
    in the three other optional fields.  In every run the calls are page
    requests followed by at most one create call, and the create call
    carries that payload for the items of the very pages the run was
    served; when the drain completes the create call is issued. *)
Theorem collection_webhook_ignores_unread_fields :
  forall (this : Helius) (remote : Remote) (fuel : nat)
         (req : CreateCollectionWebhookRequest.t)
         (accountAddresses : list string)
         (accountAddressOwners : js_opt (list string))
         (txnStatus : js_opt TxnStatus) (encoding : js_opt AccountWebhookEncoding)
         (mintlist : list MintlistItem.t) (t : trace),
    let supplied :=
      with_unread_fields req accountAddresses accountAddressOwners txnStatus
        encoding in
    let payload := fun items : list MintlistItem.t =>
      {| CreateWebhookRequest.webhookURL :=
           CreateCollectionWebhookRequest.webhookURL req;
         CreateWebhookRequest.transactionTypes :=
           CreateCollectionWebhookRequest.transactionTypes req;
         CreateWebhookRequest.accountAddresses := map MintlistItem.mint items;
         CreateWebhookRequest.accountAddressOwners := undefined;
         CreateWebhookRequest.webhookType :=
           if truthy (CreateCollectionWebhookRequest.webhookType req)
           then CreateCollectionWebhookRequest.webhookType req
           else undefined;
         CreateWebhookRequest.authHeader :=
           if truthy (CreateCollectionWebhookRequest.authHeader req)
           then CreateCollectionWebhookRequest.authHeader req
           else undefined;
         CreateWebhookRequest.txnStatus := undefined;
         CreateWebhookRequest.encoding := undefined |} in
    createCollectionWebhook this remote fuel (defined supplied) t
    = createCollectionWebhook this remote fuel (defined req) t
    /\ collection_payload supplied mintlist = payload mintlist
    /\ (forall cq : CollectionIdentifier.t,
          CreateCollectionWebhookRequest.collectionQuery req = defined cq ->
          exists (pages creates : trace),
            snd (createCollectionWebhook this remote fuel (defined supplied) t)
              = t ++ pages ++ creates
            /\ Forall (drain_page_call this (collection_query cq)) pages
            /\ (creates = [] \/
                exists (page : MintlistResponse.t)
                       (rest : list MintlistResponse.t),
                  pages_served this remote (collection_query cq) undefined t
                    (page :: rest)
                  /\ last_without_token page rest
                  /\ pages = page_calls this (collection_query cq) undefined
                               (page :: rest)
                  /\ creates = [HttpPostWebhook (webhooks_url this)
                                  (payload (items_of (page :: rest)))]))
    /\ (forall (cq : CollectionIdentifier.t) (page : MintlistResponse.t)
               (rest : list MintlistResponse.t),
          configured this ->
          CreateCollectionWebhookRequest.collectionQuery req = defined cq ->
          both_selectors cq = false ->
          pages_served this remote (collection_query cq) undefined t (page :: rest) ->
          last_without_token page rest ->
          length rest <= fuel ->
          snd (createCollectionWebhook this remote fuel (defined supplied) t)
          = t ++ page_calls this (collection_query cq) undefined (page :: rest)
              ++ [HttpPostWebhook (webhooks_url this)
                    (payload (items_of (page :: rest)))]).
Proof.
  intros this remote fuel req accountAddresses accountAddressOwners txnStatus
         encoding mintlist t supplied payload.
  assert (Hsame :
    createCollectionWebhook this remote fuel (defined supplied) t
    = createCollectionWebhook this remote fuel (defined req) t)
    by reflexivity.
  split; [exact Hsame |]. split; [reflexivity |]. split.
  - intros cq Hcq. rewrite Hsame.
    destruct (collection_run_log this remote fuel req cq t Hcq)
      as [pages [creates [Hlog [Hpages Hcreates]]]].
    exists pages, creates. split; [exact Hlog |]. split; [exact Hpages |].
    destruct Hcreates as [-> | [page [rest [Hs [Hl [Hp Hc]]]]]]; [now left |].
    right. exists page, rest. auto.
  - intros cq page rest Hkey Hcq Hboth Hserved Hlast Hfuel. rewrite Hsame.
    rewrite (createCollectionWebhook_valid this remote fuel req cq t Hcq Hboth).
    unfold try_catch, bind.
    rewrite (drain_served this remote Hkey (collection_query cq)
               (collection_query_valid cq) page rest fuel t Hserved Hlast Hfuel).
    rewrite (createWebhook_run this remote Hkey).
    destruct (on_post_webhook remote _ _ _); simpl; now rewrite <- app_assoc.
Qed.

Lemma collection_webhook_ignores_unread_fields_witness :
  snd (createCollectionWebhook Sample.helius Sample.remote 1
         (defined (with_unread_fields
                     (Sample.collection_request Sample.by_collections)
                     ["mine"] (defined ["me"]) (defined "success")
                     (defined "base64"))) [])
  = [] ++ page_calls Sample.helius (collection_query Sample.by_collections)
            undefined [Sample.page1; Sample.page2]
       ++ [HttpPostWebhook (webhooks_url Sample.helius)
             {| CreateWebhookRequest.webhookURL := "https://hook.example";
                CreateWebhookRequest.transactionTypes := ["NFT_SALE"];
                CreateWebhookRequest.accountAddresses :=
                  map MintlistItem.mint (items_of [Sample.page1; Sample.page2]);
                CreateWebhookRequest.accountAddressOwners := undefined;
                CreateWebhookRequest.webhookType := defined "enhanced";
                CreateWebhookRequest.authHeader := undefined;
                CreateWebhookRequest.txnStatus := undefined;
                CreateWebhookRequest.encoding := undefined |}].
Proof.
  refine (proj2 (proj2 (proj2
            (collection_webhook_ignores_unread_fields Sample.helius Sample.remote
               1 (Sample.collection_request Sample.by_collections)
               ["mine"] (defined ["me"]) (defined "success") (defined "base64")
               [] [])))
            Sample.by_collections Sample.page1 [Sample.page2]
            eq_refl eq_refl eq_refl _ _ _).
  - simpl. repeat split; reflexivity.
  - simpl. split; reflexivity.
  - simpl. lia.
Defined.

(** *** Validation of the collection query *)

Lemma getMintlist_valid_run (this : Helius) (remote : Remote)
    (req : MintlistRequest.t) (q : CollectionIdentifier.t) (t : trace) :
  configured this ->
  MintlistRequest.query req = defined q ->
  both_selectors q = false ->
  getMintlist this remote (defined req) t =
  (match on_post_mintlist remote t (mintlist_url this) req with
   | inl e => Threw (rethrow "getMintlist" e)
   | inr page => Returned page
   end,
   t ++ [HttpPostMintlist (mintlist_url this) req]).
Proof.
  intros Hkey Hq Hboth. destruct req as [query options]. simpl in Hq. subst query.
  rewrite (getMintlist_run this remote Hkey q options t Hboth). cbv zeta.
  destruct (on_post_mintlist remote t (mintlist_url this) _); reflexivity.
Qed.

(** C5. With a configured client, [createCollectionWebhook] and
    [getMintlist] throw before any remote call exactly when the query
    object (or the request that carries it) is absent or both selector
    kinds are set; in every other case they proceed to the page request. *)
Theorem validation_fails_iff_absent_or_both :
  forall (this : Helius) (remote : Remote),
    configured this ->
    (forall (fuel : nat) (request : js_opt CreateCollectionWebhookRequest.t)
            (t : trace),
       fails_before_any_call (createCollectionWebhook this remote fuel request) t
       <-> absent_or_both (collectionQuery_of request))
    /\ (forall (request : js_opt MintlistRequest.t) (t : trace),
          fails_before_any_call (getMintlist this remote request) t
          <-> absent_or_both (query_of request))
    /\ (forall (fuel : nat) (req : CreateCollectionWebhookRequest.t)
               (cq : CollectionIdentifier.t) (t : trace),
          CreateCollectionWebhookRequest.collectionQuery req = defined cq ->
          both_selectors cq = false ->
          exists added : trace,
            snd (createCollectionWebhook this remote fuel (defined req) t) =
            t ++ HttpPostMintlist (mintlist_url this)
                   (page_request (collection_query cq) undefined) :: added)
    /\ (forall (req : MintlistRequest.t) (q : CollectionIdentifier.t) (t : trace),
          MintlistRequest.query req = defined q ->
          both_selectors q = false ->
          snd (getMintlist this remote (defined req) t) =
          t ++ [HttpPostMintlist (mintlist_url this) req]).
Proof.
  intros this remote Hkey.
  split; [| split; [| split]].
  - intros fuel request t. unfold fails_before_any_call, absent_or_both. split.
    + intros [e Hrun].
      destruct request as [| | req]; [now left | now left |].
      simpl. destruct (CreateCollectionWebhookRequest.collectionQuery req)
        as [| | cq] eqn:Hcq; [now left | now left |].
      destruct (both_selectors cq) eqn:Hboth; [right; now exists cq |].
      exfalso.
      destruct (createCollectionWebhook_first_call this remote Hkey fuel req cq t
                  Hcq Hboth) as [added Hadded].
      rewrite Hrun in Hadded. simpl in Hadded.
      symmetry in Hadded. exact (app_cons_neq _ _ _ Hadded).
    + intros [Habsent | [cq [Hcq Hboth]]].
      * destruct request as [| | req]; simpl in *.
        -- eexists. reflexivity.
        -- eexists. reflexivity.
        -- destruct (CreateCollectionWebhookRequest.collectionQuery req);
             try discriminate; eexists; reflexivity.
      * destruct request as [| | req]; simpl in Hcq; try discriminate.
        unfold both_selectors in Hboth.
        unfold createCollectionWebhook. rewrite Hcq, Hboth.
        eexists. reflexivity.
  - intros request t. unfold fails_before_any_call, absent_or_both. split.
    + intros [e Hrun].
      destruct request as [| | req]; [now left | now left |].
      simpl. destruct (MintlistRequest.query req) as [| | q] eqn:Hq;
        [now left | now left |].
      destruct (both_selectors q) eqn:Hboth; [right; now exists q |].
      exfalso.
      rewrite (getMintlist_valid_run this remote req q t Hkey Hq Hboth) in Hrun.
      injection Hrun as _ Htrace.
      exact (app_cons_neq _ _ _ Htrace).
    + intros [Habsent | [q [Hq Hboth]]].
      * destruct request as [| | req]; simpl in *.
        -- eexists. reflexivity.
        -- eexists. reflexivity.
        -- destruct (MintlistRequest.query req);
             try discriminate; eexists; reflexivity.
      * destruct request as [| | req]; simpl in Hq; try discriminate.
        unfold both_selectors in Hboth.
        unfold getMintlist. rewrite Hq, Hboth.
        eexists. reflexivity.
  - intros fuel req cq t Hcq Hboth.
    now apply createCollectionWebhook_first_call.
  - intros req q t Hq Hboth.
    now rewrite (getMintlist_valid_run this remote req q t Hkey Hq Hboth).
Qed.

Lemma validation_fails_iff_absent_or_both_witness :
  (fails_before_any_call
     (createCollectionWebhook Sample.helius Sample.remote 1 undefined) []
   <-> absent_or_both (collectionQuery_of undefined))
  /\ snd (getMintlist Sample.helius Sample.remote
            (defined (page_request Sample.by_collections undefined)) []) =
     [] ++ [HttpPostMintlist (mintlist_url Sample.helius)
              (page_request Sample.by_collections undefined)].
Proof.
  split.
  - exact (proj1 (validation_fails_iff_absent_or_both Sample.helius
                    Sample.remote eq_refl) 1 undefined []).
  - exact (proj2 (proj2 (proj2 (validation_fails_iff_absent_or_both
                                  Sample.helius Sample.remote eq_refl)))
             (page_request Sample.by_collections undefined)
             Sample.by_collections [] eq_refl eq_refl).
Defined.

(** C4, amended.  A query in which neither selector kind is set
    passes the validation of [getMintlist]: the request is sent to the
    remote service unchanged, as the only call, and the outcome is the
    remote's answer, or its rejection wrapped with the operation's name. *)
Theorem getMintlist_forwards_query_without_selector :
  forall (this : Helius) (remote : Remote) (req : MintlistRequest.t)
         (q : CollectionIdentifier.t) (t : trace),
    configured this ->
    MintlistRequest.query req = defined q ->
    no_selector q = true ->
    getMintlist this remote (defined req) t =
    (match on_post_mintlist remote t (mintlist_url this) req with
     | inl e => Threw (rethrow "getMintlist" e)
     | inr page => Returned page
     end,
     t ++ [HttpPostMintlist (mintlist_url this) req]).
Proof.
  intros this remote req q t Hkey Hq Hnone.
  apply (getMintlist_valid_run this remote req q t Hkey Hq).
  now apply no_selector_not_both.
Qed.

Lemma getMintlist_forwards_query_without_selector_witness :
  getMintlist Sample.helius Sample.remote
    (defined (page_request Sample.no_selectors undefined)) [] =
  (Returned Sample.page1,
   [HttpPostMintlist (mintlist_url Sample.helius)
      (page_request Sample.no_selectors undefined)]).
Proof.
  exact (getMintlist_forwards_query_without_selector Sample.helius Sample.remote
           (page_request Sample.no_selectors undefined) Sample.no_selectors []
           eq_refl eq_refl eq_refl).
Defined.

(** C4 does not hold as stated: with neither selector kind set, on a client
    with an API key and a remote that answers, [getMintlist] returns the
    page and [createCollectionWebhook] returns the created webhook, both
    after calling the remote service. *)
Lemma query_without_selector_is_not_rejected :
  no_selector Sample.no_selectors = true
  /\ getMintlist Sample.helius Sample.remote
       (defined {| MintlistRequest.query := defined Sample.no_selectors;
                   MintlistRequest.options := undefined |}) [] =
     (Returned Sample.page1,
      [HttpPostMintlist (mintlist_url Sample.helius)
         {| MintlistRequest.query := defined Sample.no_selectors;
            MintlistRequest.options := undefined |}])
  /\ createCollectionWebhook Sample.helius Sample.remote 1
       (defined (Sample.collection_request Sample.no_selectors)) [] =
     (Returned
        (Sample.created
           (collection_payload (Sample.collection_request Sample.no_selectors)
              [Sample.item "mintA"; Sample.item "mintB"; Sample.item "mintC"])),
      [HttpPostMintlist (mintlist_url Sample.helius)
         (page_request Sample.no_selectors undefined);
       HttpPostMintlist (mintlist_url Sample.helius)
         (page_request Sample.no_selectors (defined "p2"));
       HttpPostWebhook (webhooks_url Sample.helius)
         (collection_payload (Sample.collection_request Sample.no_selectors)
            [Sample.item "mintA"; Sample.item "mintB"; Sample.item "mintC"])]).
Proof.
  split; [reflexivity |]. split; vm_compute; reflexivity.
Qed.

(** ** Further properties of the code *)

(** *** Endpoints and the constructor *)

Lemma startsWith_begins_with (p path : string) :
  startsWith path p = true <-> begins_with p path.
Proof.
  unfold startsWith, begins_with. revert path.
  induction p as [| a p IH]; intros path; simpl.
  - split; [intros _; now exists path | intros _; now destruct path].
  - destruct path as [| b path]; simpl.
    + split; [discriminate | intros [rest H]; discriminate].
    + destruct (Ascii.ascii_dec a b) as [Hab | Hab].
      * subst b. rewrite IH. split; intros [rest H]; exists rest.
        -- now rewrite H.
        -- now injection H.
      * split; [discriminate |].
        intros [rest H]. injection H as H1 _. congruence.
Qed.

(** X1. [getApiEndpoint] returns a URL exactly when the path begins with
    [/v0] or [/v1] and the client has a non-empty key, and the URL is then
    the API endpoint, the path and the key as query string.  A path with
    another beginning is reported as invalid whether or not there is a key;
    only a valid path reaches the complaint about the key. *)
Theorem getApiEndpoint_succeeds_iff :
  forall (this : Helius) (path : string),
    (forall url : string,
       getApiEndpoint this path = inr url <->
       (begins_with "/v0" path \/ begins_with "/v1" path) /\
       truthy (apiKey this) = true /\
       url = (HeliusEndpoints.api (endpoints this) ++ path ++ "?api-key=" ++
              template (apiKey this))%string)
    /\ (~ (begins_with "/v0" path \/ begins_with "/v1" path) ->
        getApiEndpoint this path =
        inl (Error ("Invalid API path provided: " ++ path ++
                    ". Path must start with '/v0' or '/v1'.")%string))
    /\ (begins_with "/v0" path \/ begins_with "/v1" path ->
        truthy (apiKey this) = false ->
        getApiEndpoint this path = inl (Error "API key is not set")).
Proof.
  intros this path. unfold getApiEndpoint.
  destruct (startsWith path "/v0") eqn:E0; destruct (startsWith path "/v1") eqn:E1;
    cbn [negb andb].
  all: try (assert (H0 : begins_with "/v0" path)
              by now apply startsWith_begins_with).
  all: try (assert (H1 : begins_with "/v1" path)
              by now apply startsWith_begins_with).
  1-3: destruct (truthy (apiKey this)) eqn:Hkey; cbn [negb];
    (split; [| split]);
    [ intros url; split;
        [ intros H; injection H as <-; auto
        | intros [_ [_ ->]]; reflexivity ]
    | intros Hnot; exfalso; apply Hnot; auto
    | intros _ Hf; discriminate
    | intros url; split; [discriminate | intros [_ [Hf _]]; discriminate]
    | intros Hnot; exfalso; apply Hnot; auto
    | reflexivity ].
  assert (Hnone : ~ (begins_with "/v0" path \/ begins_with "/v1" path)).
  { intros [H | H]; apply startsWith_begins_with in H; congruence. }
  split; [| split].
  - intros url. split; [discriminate | intros [H _]; contradiction].
  - reflexivity.
  - intros H. contradiction.
Qed.

(** X2. The constructor fails with the endpoints' error first, then with
    [either `apiKey` is required] on the empty key, then with the
    authority's error.  When it returns, the key was not empty, the cluster
    and the id are the ones given or the defaults [mainnet-beta] and
    [helius-sdk], the JSON-RPC client points at the API endpoint of the
    cluster, and the object's key and endpoints are those of [new_Helius],
    hence a configured client. *)
Theorem Helius_constructor_result :
  forall (MintApiAuthority : Type)
         (getHeliusEndpoints : HeliusCluster -> exn + HeliusEndpoints.t)
         (mintApiAuthority_of : HeliusCluster -> exn + MintApiAuthority)
         (apiKey : string) (cluster : option HeliusCluster) (id : option string),
    let c := match cluster with Some c => c | None => mainnet_beta end in
    let i := match id with Some i => i | None => "helius-sdk"%string end in
    let built :=
      Helius_constructor MintApiAuthority getHeliusEndpoints mintApiAuthority_of
        apiKey cluster id in
    (forall e, getHeliusEndpoints c = inl e -> built = inl e)
    /\ (forall eps, getHeliusEndpoints c = inr eps -> apiKey = ""%string ->
          built = inl (Error "either `apiKey` is required"))
    /\ (forall eps e, getHeliusEndpoints c = inr eps -> apiKey <> ""%string ->
          mintApiAuthority_of c = inl e -> built = inl e)
    /\ (forall eps a, getHeliusEndpoints c = inr eps -> apiKey <> ""%string ->
          mintApiAuthority_of c = inr a -> exists obj, built = inr obj)
    /\ (forall obj,
          built = inr obj ->
          apiKey <> ""%string
          /\ getHeliusEndpoints c = inr (endpoints (HeliusObject.base obj))
          /\ mintApiAuthority_of c = inr (HeliusObject.mintApiAuthority obj)
          /\ new_Helius apiKey (endpoints (HeliusObject.base obj))
             = inr (HeliusObject.base obj)
          /\ configured (HeliusObject.base obj)
          /\ HeliusObject.cluster obj = c
          /\ HeliusObject.endpoint obj =
             HeliusEndpoints.api (endpoints (HeliusObject.base obj))
          /\ HeliusObject.rpc obj =
             {| RpcClient.url :=
                  HeliusEndpoints.api (endpoints (HeliusObject.base obj));
                RpcClient.id := defined i |}).
Proof.
  intros MintApiAuthority getHeliusEndpoints mintApiAuthority_of apiKey cluster id
         c i built.
  subst built. unfold Helius_constructor. fold c. fold i.
  split; [| split; [| split; [| split]]].
  - intros e He. now rewrite He.
  - intros eps Heps ->. now rewrite Heps.
  - intros eps e Heps Hkey Hauth. rewrite Heps, Hauth.
    apply String.eqb_neq in Hkey. now rewrite Hkey.
  - intros eps a Heps Hkey Hauth. rewrite Heps, Hauth.
    apply String.eqb_neq in Hkey. rewrite Hkey. eexists. reflexivity.
  - intros obj Hobj.
    destruct (getHeliusEndpoints c) as [e | eps] eqn:Heps; [discriminate |].
    destruct (apiKey =? "")%string eqn:Ekey; cbn [negb] in Hobj; [discriminate |].
    destruct (mintApiAuthority_of c) as [e | a] eqn:Hauth; [discriminate |].
    injection Hobj as <-. cbn.
    split; [now apply String.eqb_neq |].
    split; [reflexivity |]. split; [reflexivity |].
    split; [unfold new_Helius; now rewrite Ekey |].
    split; [unfold configured; simpl; now rewrite Ekey |].
    repeat split.
Qed.

Example Helius_constructor_defaults :
  Helius_constructor string Fixture.endpoints_of Fixture.authority_of "k3y" None None
  = inr {| HeliusObject.base := Sample.helius;
           HeliusObject.cluster := mainnet_beta;
           HeliusObject.endpoint := "https://api.example";
           HeliusObject.rpc := Fixture.rpc_client;
           HeliusObject.mintApiAuthority := "authority-mainnet" |}.
Proof. reflexivity. Qed.

(** *** A client without key *)

(** X3. On a client whose key is missing or empty, every webhook method
    throws without issuing a single HTTP call.  The message is
    [API key is not set] behind the name of each method the failure passed
    through, so the nested operations show in it. *)
Theorem keyless_client_issues_no_call :
  forall (this : Helius) (remote : Remote),
    truthy (apiKey this) = false ->
    (forall webhookID t,
       getWebhookByID this remote webhookID t =
       (Threw (Error "error during getWebhookByID: Error: API key is not set"), t))
    /\ (forall payload t,
          createWebhook this remote payload t =
          (Threw (Error "error during createWebhook: Error: API key is not set"), t))
    /\ (forall on_get_all t,
          getAllWebhooks this on_get_all t =
          (Threw (Error "error calling getWebhooks: Error: API key is not set"), t))
    /\ (forall on_delete webhookID log,
          deleteWebhook this on_delete webhookID log =
          (Logged.Rejected
             (Error "error during deleteWebhook: Error: API key is not set"), log))
    /\ (forall webhookID edit t,
          editWebhook this remote webhookID edit t =
          (Threw (Error "error during editWebhook: Error: error during getWebhookByID: Error: API key is not set"), t))
    /\ (forall webhookID addresses t,
          appendAddressesToWebhook this remote webhookID addresses t =
          (Threw (Error "error during appendAddressesToWebhook: Error: error during getWebhookByID: Error: API key is not set"), t))
    /\ (forall webhookID addresses t,
          removeAddressesFromWebhook this remote webhookID addresses t =
          (Threw (Error "error during removeAddressesFromWebhook: Error: error during getWebhookByID: Error: API key is not set"), t))
    /\ (forall req q t,
          MintlistRequest.query req = defined q ->
          both_selectors q = false ->
          getMintlist this remote (defined req) t =
          (Threw (Error "error during getMintlist: Error: API key is not set"), t))
    /\ (forall fuel req cq t,
          CreateCollectionWebhookRequest.collectionQuery req = defined cq ->
          both_selectors cq = false ->
          createCollectionWebhook this remote fuel (defined req) t =
          (Threw (Error "error during createCollectionWebhook: Error: error during getMintlist: Error: API key is not set"), t)).
Proof.
  intros this remote Hkey.
  assert (Hget : forall webhookID t,
            getWebhookByID this remote webhookID t =
            (Threw (Error "error during getWebhookByID: Error: API key is not set"), t)).
  { intros webhookID t. unfold getWebhookByID, try_catch, bind.
    rewrite (getApiEndpoint_keyless this _ Hkey) by (left; reflexivity).
    reflexivity. }
  assert (Hmint : forall req q t,
            MintlistRequest.query req = defined q ->
            both_selectors q = false ->
            getMintlist this remote (defined req) t =
            (Threw (Error "error during getMintlist: Error: API key is not set"), t)).
  { intros req q t Hq Hboth. unfold both_selectors in Hboth.
    unfold getMintlist. rewrite Hq, Hboth. unfold try_catch, bind.
    rewrite (getApiEndpoint_keyless this _ Hkey) by (right; reflexivity).
    reflexivity. }
  repeat split.
  - exact Hget.
  - intros payload t. unfold createWebhook, try_catch, bind.
    rewrite (getApiEndpoint_keyless this _ Hkey) by (left; reflexivity).
    reflexivity.
  - intros on_get_all t. unfold getAllWebhooks, try_catch, bind.
    rewrite (getApiEndpoint_keyless this _ Hkey) by (left; reflexivity).
    reflexivity.
  - intros on_delete webhookID log.
    unfold deleteWebhook, Logged.try_catch, Logged.bind.
    rewrite (getApiEndpoint_keyless this _ Hkey) by (left; reflexivity).
    reflexivity.
  - intros webhookID edit t. unfold editWebhook, try_catch, bind.
    rewrite Hget. reflexivity.
  - intros webhookID addresses t.
    unfold appendAddressesToWebhook, try_catch, bind.
    rewrite Hget. reflexivity.
  - intros webhookID addresses t.
    unfold removeAddressesFromWebhook, try_catch, bind.
    rewrite Hget. reflexivity.
  - exact Hmint.
  - intros fuel req cq t Hcq Hboth. unfold both_selectors in Hboth.
    unfold createCollectionWebhook. rewrite Hcq, Hboth.
    unfold try_catch, drain, bind.
    rewrite (Hmint (page_request (collection_query cq) undefined)
               (collection_query cq) t eq_refl (collection_query_valid cq)).
    reflexivity.
Qed.

Lemma keyless_client_issues_no_call_witness :
  getWebhookByID Fixture.keyless Sample.remote "wh1" [] =
    (Threw (Error "error during getWebhookByID: Error: API key is not set"), [])
  /\ createCollectionWebhook Fixture.keyless Sample.remote 1
       (defined (Sample.collection_request Sample.by_collections)) [] =
     (Threw (Error "error during createCollectionWebhook: Error: error during getMintlist: Error: API key is not set"), []).
Proof.
  split.
  - exact (proj1 (keyless_client_issues_no_call Fixture.keyless Sample.remote
                    eq_refl) "wh1" []).
  - exact (proj2 (proj2 (proj2 (proj2 (proj2 (proj2 (proj2 (proj2
             (keyless_client_issues_no_call Fixture.keyless Sample.remote
                eq_refl)))))))) 1
             (Sample.collection_request Sample.by_collections)
             Sample.by_collections [] eq_refl eq_refl).
Defined.

(** *** Fetch, then write *)

Lemma rethrow_detail (op : string) (e : exn) :
  rethrow op e = Error ("error during " ++ op ++ ": " ++ failure_detail e)%string.
Proof. destruct e; reflexivity. Qed.

Lemma editRequest_of_only_addresses (w : Webhook.t) (l : list string) :
  editRequest_of w (EditWebhookRequest.only_accountAddresses l) = with_addresses w l.
Proof. reflexivity. Qed.

(** X4. [editWebhook] fetches the webhook and then writes the merged
    record.  When the fetch fails no write is issued and the error carries
    both operation names; when the write fails, the remote's rejection is
    thrown as it is, without the [error during editWebhook] wrapping,
    because the promise of the write is returned without being awaited. *)
Theorem editWebhook_fetches_then_writes :
  forall (this : Helius) (remote : Remote) (webhookID : string)
         (edit : EditWebhookRequest.t) (t : trace),
    configured this ->
    (forall e,
       on_get remote t (webhook_url this webhookID) = inl e ->
       editWebhook this remote webhookID edit t =
       (Threw (Error ("error during editWebhook: Error: error during getWebhookByID: "
                      ++ failure_detail e)%string),
        t ++ [HttpGet (webhook_url this webhookID)]))
    /\ (forall existing,
          on_get remote t (webhook_url this webhookID) = inr existing ->
          editWebhook this remote webhookID edit t =
          (match on_put remote (t ++ [HttpGet (webhook_url this webhookID)])
                   (webhook_url this webhookID) (editRequest_of existing edit) with
           | inl e => Threw e
           | inr w => Returned w
           end,
           t ++ [HttpGet (webhook_url this webhookID);
                 HttpPut (webhook_url this webhookID)
                   (editRequest_of existing edit)])).
Proof.
  intros this remote webhookID edit t Hkey. split.
  - intros e Hget. unfold editWebhook, bind, try_catch.
    rewrite (getWebhookByID_run this remote Hkey), Hget.
    rewrite (rethrow_detail "getWebhookByID" e). reflexivity.
  - intros existing Hget. unfold editWebhook, bind, try_catch.
    rewrite (getWebhookByID_run this remote Hkey), Hget.
    rewrite (_editWebhook_run this remote Hkey), <- app_assoc.
    destruct (on_put remote _ _ _); reflexivity.
Qed.

Lemma editWebhook_fetches_then_writes_witness :
  editWebhook Sample.helius Fixture.empty_remote "wh9" Sample.edit_types [] =
    (Threw (Error "error during editWebhook: Error: error during getWebhookByID: webhook not found"),
     [HttpGet (webhook_url Sample.helius "wh9")])
  /\ editWebhook Sample.helius Sample.remote "wh1" Sample.edit_types [] =
     (Returned (Sample.replaced (editRequest_of Sample.stored Sample.edit_types)),
      [HttpGet (webhook_url Sample.helius "wh1");
       HttpPut (webhook_url Sample.helius "wh1")
         (editRequest_of Sample.stored Sample.edit_types)]).
Proof.
  split.
  - exact (proj1 (editWebhook_fetches_then_writes Sample.helius
                    Fixture.empty_remote "wh9" Sample.edit_types [] eq_refl)
             Fixture.not_found eq_refl).
  - exact (proj2 (editWebhook_fetches_then_writes Sample.helius Sample.remote
                    "wh1" Sample.edit_types [] eq_refl)
             Sample.stored eq_refl).
Defined.

Lemma nullish_coalesce_idempotent {A : Type} (x d : js_opt A) :
  (x ?? d) ?? d = x ?? d.
Proof. destruct x; simpl; [| | reflexivity]; now destruct d. Qed.

(** X5. The merge of [_editWebhook] is idempotent; merging the edit that
    sets nothing gives the webhook's own values back; and an edit that
    provides every field is sent as it is, whatever the webhook holds. *)
Theorem edit_merge_algebra :
  forall (existing : Webhook.t) (edit : EditWebhookRequest.t),
    editRequest_of existing (editRequest_of existing edit)
      = editRequest_of existing edit
    /\ editRequest_of existing no_edit
       = with_addresses existing (Webhook.accountAddresses existing)
    /\ (complete_edit edit -> editRequest_of existing edit = edit)
    /\ (forall other : Webhook.t,
          complete_edit edit ->
          editRequest_of other edit = editRequest_of existing edit).
Proof.
  intros existing edit.
  assert (Hcomplete : forall w, complete_edit edit -> editRequest_of w edit = edit).
  { intros w. unfold complete_edit. destruct edit as [u ty a o wt ah ts en].
    cbn. intros (Hu & Hty & Ha & Ho & Hwt & Hah & Hts & Hen).
    destruct u, ty, a, o, wt, ah, ts, en; try discriminate. reflexivity. }
  split; [| split; [| split]].
  - unfold editRequest_of. cbn. now rewrite !nullish_coalesce_idempotent.
  - reflexivity.
  - apply Hcomplete.
  - intros other H. now rewrite !Hcomplete.
Qed.

(** X6. After a successful fetch, appending and removing write the
    webhook's URL, transaction types, owners, type, auth header, status and
    encoding back as fetched: only the address list differs, and it is the
    concatenation, or the filtered list. *)
Theorem address_edits_keep_other_fields :
  forall (this : Helius) (remote : Remote) (webhookID : string)
         (addresses : list string) (t : trace) (webhook : Webhook.t),
    configured this ->
    on_get remote t (webhook_url this webhookID) = inr webhook ->
    ((Z.of_nat (length (Webhook.accountAddresses webhook ++ addresses))
      <= 100000)%Z ->
     snd (appendAddressesToWebhook this remote webhookID addresses t) =
     t ++ [HttpGet (webhook_url this webhookID);
           HttpPut (webhook_url this webhookID)
             (with_addresses webhook
                (Webhook.accountAddresses webhook ++ addresses))])
    /\ snd (removeAddressesFromWebhook this remote webhookID addresses t) =
       t ++ [HttpGet (webhook_url this webhookID);
             HttpPut (webhook_url this webhookID)
               (with_addresses webhook
                  (remaining_addresses (Webhook.accountAddresses webhook)
                     addresses))].
Proof.
  intros this remote webhookID addresses t webhook Hkey Hget. split.
  - intros Hfits. apply Z.ltb_ge in Hfits.
    rewrite (append_guard_run this remote webhookID addresses t webhook Hkey Hget).
    rewrite Hfits, (_editWebhook_run this remote Hkey), <- app_assoc.
    rewrite editRequest_of_only_addresses.
    destruct (on_put remote _ _ _); reflexivity.
  - rewrite (remove_run this remote webhookID addresses t webhook Hkey Hget).
    now rewrite editRequest_of_only_addresses.
Qed.

Lemma address_edits_keep_other_fields_witness :
  snd (removeAddressesFromWebhook Sample.helius Sample.remote "wh1" ["addr1"] []) =
  [] ++ [HttpGet (webhook_url Sample.helius "wh1");
         HttpPut (webhook_url Sample.helius "wh1")
           (with_addresses Sample.stored
              (remaining_addresses (Webhook.accountAddresses Sample.stored)
                 ["addr1"]))].
Proof.
  exact (proj2 (address_edits_keep_other_fields Sample.helius Sample.remote "wh1"
                  ["addr1"] [] Sample.stored eq_refl eq_refl)).
Defined.

(** X7. When the fetch fails, appending and removing issue no write: the
    only call is the fetch, and the error names the operation and
    [getWebhookByID] before the remote's own text. *)
Theorem address_edits_stop_at_failed_fetch :
  forall (this : Helius) (remote : Remote) (webhookID : string)
         (addresses : list string) (t : trace) (e : exn),
    configured this ->
    on_get remote t (webhook_url this webhookID) = inl e ->
    appendAddressesToWebhook this remote webhookID addresses t =
      (Threw (Error ("error during appendAddressesToWebhook: Error: error during getWebhookByID: "
                     ++ failure_detail e)%string),
       t ++ [HttpGet (webhook_url this webhookID)])
    /\ removeAddressesFromWebhook this remote webhookID addresses t =
       (Threw (Error ("error during removeAddressesFromWebhook: Error: error during getWebhookByID: "
                      ++ failure_detail e)%string),
        t ++ [HttpGet (webhook_url this webhookID)]).
Proof.
  intros this remote webhookID addresses t e Hkey Hget. split.
  - unfold appendAddressesToWebhook, bind, try_catch.
    rewrite (getWebhookByID_run this remote Hkey), Hget.
    rewrite (rethrow_detail "getWebhookByID" e). reflexivity.
  - unfold removeAddressesFromWebhook, bind, try_catch.
    rewrite (getWebhookByID_run this remote Hkey), Hget.
    rewrite (rethrow_detail "getWebhookByID" e). reflexivity.
Qed.

Lemma address_edits_stop_at_failed_fetch_witness :
  appendAddressesToWebhook Sample.helius Fixture.empty_remote "wh9" ["addr3"] [] =
    (Threw (Error "error during appendAddressesToWebhook: Error: error during getWebhookByID: webhook not found"),
     [HttpGet (webhook_url Sample.helius "wh9")])
  /\ removeAddressesFromWebhook Sample.helius Fixture.empty_remote "wh9" ["addr3"] [] =
     (Threw (Error "error during removeAddressesFromWebhook: Error: error during getWebhookByID: webhook not found"),
      [HttpGet (webhook_url Sample.helius "wh9")]).
Proof.
  exact (address_edits_stop_at_failed_fetch Sample.helius Fixture.empty_remote
           "wh9" ["addr3"] [] Fixture.not_found eq_refl eq_refl).
Defined.

(** *** The capacity ceiling *)

(** X8. Whatever the client, the remote and the webhook fetched, a run of
    [appendAddressesToWebhook] issues no call at all (exactly when the
    client has no key), or the fetch of the webhook alone, or that fetch
    followed by one write to the same URL.  The write happens only after a
    successful fetch, carries the fetched webhook with the existing
    addresses followed by the new ones, and that list has at most 100,000
    entries: no run puts a longer list on the wire, and none writes without
    having fetched. *)
Theorem append_never_writes_over_capacity :
  forall (this : Helius) (remote : Remote) (webhookID : string)
         (newAccountAddresses : list string) (t : trace),
    exists added : trace,
      snd (appendAddressesToWebhook this remote webhookID newAccountAddresses t)
        = t ++ added
      /\ Forall fetch_or_write_within_capacity added
      /\ length added <= 2
      /\ (added = []
          \/ added = [HttpGet (webhook_url this webhookID)]
          \/ exists webhook : Webhook.t,
               on_get remote t (webhook_url this webhookID) = inr webhook
               /\ (Z.of_nat (length (Webhook.accountAddresses webhook
                                     ++ newAccountAddresses)) <= 100000)%Z
               /\ added =
                  [HttpGet (webhook_url this webhookID);
                   HttpPut (webhook_url this webhookID)
                     (with_addresses webhook
                        (Webhook.accountAddresses webhook
                         ++ newAccountAddresses))])
      /\ (added = [] <-> truthy (apiKey this) = false).
Proof.
  intros this remote webhookID newAccountAddresses t.
  destruct (truthy (apiKey this)) eqn:Hkey.
  - assert (Hconf : configured this) by exact Hkey.
    destruct (on_get remote t (webhook_url this webhookID))
      as [e | webhook] eqn:Hget.
    + exists [HttpGet (webhook_url this webhookID)].
      split.
      { unfold appendAddressesToWebhook, bind, try_catch.
        now rewrite (getWebhookByID_run this remote Hconf), Hget. }
      split; [repeat constructor |]. split; [simpl; lia |].
      split; [right; now left |].
      split; discriminate.
    + rewrite (append_guard_run this remote webhookID newAccountAddresses t
                 webhook Hconf Hget).
      destruct (100000 <? _)%Z eqn:Hlen.
      * exists [HttpGet (webhook_url this webhookID)].
        split; [reflexivity |].
        split; [repeat constructor |]. split; [simpl; lia |].
        split; [right; now left |].
        split; discriminate.
      * apply Z.ltb_ge in Hlen.
        exists [HttpGet (webhook_url this webhookID);
                HttpPut (webhook_url this webhookID)
                  (with_addresses webhook
                     (Webhook.accountAddresses webhook ++ newAccountAddresses))].
        split.
        { rewrite (_editWebhook_run this remote Hconf), <- app_assoc.
          rewrite editRequest_of_only_addresses.
          destruct (on_put remote _ _ _); reflexivity. }
        split.
        { constructor; [exact I |]. constructor; [| constructor].
          simpl. eexists. split; [reflexivity | exact Hlen]. }
        split; [simpl; lia |].
        split; [right; right; exists webhook; auto |].
        split; discriminate.
  - exists []. split.
    { unfold appendAddressesToWebhook, bind, try_catch, getWebhookByID,
        try_catch, bind.
      rewrite (getApiEndpoint_keyless this _ Hkey) by (left; reflexivity).
      simpl. now rewrite app_nil_r. }
    split; [constructor |]. split; [simpl; lia |].
    split; [now left |]. split; auto.
Qed.

(** *** Algebra of removal *)

Lemma remaining_addresses_app (l1 l2 r : list string) :
  remaining_addresses (l1 ++ l2) r =
  remaining_addresses l1 r ++ remaining_addresses l2 r.
Proof. unfold remaining_addresses. apply filter_app. Qed.

Lemma includes_app (r1 r2 : list string) (a : string) :
  includes (r1 ++ r2) a = includes r1 a || includes r2 a.
Proof. unfold includes. apply existsb_app. Qed.

Lemma remaining_addresses_twice (l r1 r2 : list string) :
  remaining_addresses (remaining_addresses l r1) r2 =
  remaining_addresses l (r1 ++ r2).
Proof.
  unfold remaining_addresses.
  induction l as [| a l IH]; simpl; [reflexivity |].
  rewrite includes_app.
  destruct (includes r1 a); simpl; [exact IH |].
  destruct (includes r2 a); simpl; [exact IH | now rewrite IH].
Qed.

Lemma remaining_addresses_count (l r : list string) (a : string) :
  count_occ string_dec (remaining_addresses l r) a =
  if includes r a then 0 else count_occ string_dec l a.
Proof.
  unfold remaining_addresses.
  destruct (includes r a) eqn:E.
  - induction l as [| b l IH]; simpl; [reflexivity |].
    destruct (includes r b) eqn:Eb; simpl; [exact IH |].
    destruct (string_dec b a) as [Heq | Hne]; [| exact IH].
    subst b. congruence.
  - induction l as [| b l IH]; simpl; [reflexivity |].
    destruct (string_dec b a) as [Heq | Hne].
    + subst b. rewrite E. simpl.
      destruct (string_dec a a); [now rewrite IH | contradiction].
    + destruct (includes r b); simpl; [exact IH |].
      destruct (string_dec b a); [contradiction | exact IH].
Qed.

(** X9. The list [removeAddressesFromWebhook] computes: removing nothing
    changes nothing; removal distributes over concatenation of the existing
    list; removing [r1] and then [r2] is removing [r1 ++ r2], in either
    order; the result is never longer than the existing list; and every
    copy of a removed address goes while every copy of another address
    stays. *)
Theorem removal_algebra :
  forall (existing more r1 r2 : list string),
    remaining_addresses existing [] = existing
    /\ remaining_addresses (existing ++ more) r1 =
       remaining_addresses existing r1 ++ remaining_addresses more r1
    /\ remaining_addresses (remaining_addresses existing r1) r2 =
       remaining_addresses existing (r1 ++ r2)
    /\ remaining_addresses (remaining_addresses existing r1) r2 =
       remaining_addresses (remaining_addresses existing r2) r1
    /\ length (remaining_addresses existing r1) <= length existing
    /\ (forall a : string,
          count_occ string_dec (remaining_addresses existing r1) a =
          if in_dec string_dec a r1 then 0 else count_occ string_dec existing a).
Proof.
  intros existing more r1 r2.
  split; [| split; [| split; [| split; [| split]]]].
  - apply remaining_addresses_absent. intros a [].
  - apply remaining_addresses_app.
  - apply remaining_addresses_twice.
  - rewrite !remaining_addresses_twice.
    unfold remaining_addresses. apply filter_ext. intros a.
    rewrite !includes_app. now rewrite orb_comm.
  - unfold remaining_addresses. apply filter_length_le.
  - intros a. rewrite remaining_addresses_count.
    destruct (in_dec string_dec a r1) as [Hin | Hout].
    + apply includes_In in Hin. now rewrite Hin.
    + destruct (includes r1 a) eqn:E; [| reflexivity].
      apply includes_In in E. contradiction.
Qed.

(** X10. Appending and then removing the same addresses: on the webhook as
    the append wrote it, the removal writes the original list without the
    addresses that were appended, and that is the original list exactly
    when none of the appended addresses was in it; otherwise the copies the
    webhook held before the append are lost too. *)
Theorem append_then_remove :
  forall (this : Helius) (remote : Remote) (webhookID : string)
         (addresses : list string) (t : trace) (webhook : Webhook.t)
         (original : list string),
    configured this ->
    on_get remote t (webhook_url this webhookID) = inr webhook ->
    Webhook.accountAddresses webhook = original ++ addresses ->
    snd (removeAddressesFromWebhook this remote webhookID addresses t) =
      t ++ [HttpGet (webhook_url this webhookID);
            HttpPut (webhook_url this webhookID)
              (with_addresses webhook (remaining_addresses original addresses))]
    /\ (remaining_addresses original addresses = original <->
        (forall a, In a addresses -> ~ In a original)).
Proof.
  intros this remote webhookID addresses t webhook original Hkey Hget Hlist.
  split.
  - rewrite (remove_run this remote webhookID addresses t webhook Hkey Hget).
    rewrite editRequest_of_only_addresses, Hlist, remaining_addresses_app.
    rewrite (remaining_addresses_all addresses addresses) by auto.
    now rewrite app_nil_r.
  - split.
    + intros Hsame a Hin Horig. rewrite <- Hsame in Horig.
      apply remaining_addresses_In in Horig. tauto.
    + apply remaining_addresses_absent.
Qed.

Lemma append_then_remove_witness :
  snd (removeAddressesFromWebhook Sample.helius Sample.remote "wh1" ["addr1"] []) =
    [] ++ [HttpGet (webhook_url Sample.helius "wh1");
           HttpPut (webhook_url Sample.helius "wh1")
             (with_addresses Sample.stored
                (remaining_addresses ["addr1"; "addr2"] ["addr1"]))]
  /\ (remaining_addresses ["addr1"; "addr2"] ["addr1"] = ["addr1"; "addr2"] <->
      (forall a, In a ["addr1"] -> ~ In a ["addr1"; "addr2"])).
Proof.
  exact (append_then_remove Sample.helius Sample.remote "wh1" ["addr1"] []
           Sample.stored ["addr1"; "addr2"] eq_refl eq_refl eq_refl).
Defined.

(** On that webhook the address was there before the append: the removal
    writes a shorter list than the original. *)
Example append_then_remove_loses_copies :
  remaining_addresses ["addr1"; "addr2"] ["addr1"] = ["addr2"].
Proof. reflexivity. Qed.

(** *** Single calls and their failures *)

Lemma rethrow_calling_detail (op : string) (e : exn) :
  rethrow_calling op e =
  Error ("error calling " ++ op ++ ": " ++ failure_detail e)%string.
Proof. destruct e; reflexivity. Qed.

Lemma value_or_error_cases (x : js_opt js_value) (err : exn) :
  (forall v, x = defined v -> value_truthy v = true ->
     value_or_error x err = value_to_string v)
  /\ ((x = undefined \/ x = null \/
       exists v, x = defined v /\ value_truthy v = false) ->
      value_or_error x err = exn_to_string err).
Proof.
  split.
  - intros v -> Hv. simpl. now rewrite Hv.
  - intros [-> | [-> | [v [-> Hv]]]]; simpl; [reflexivity | reflexivity |].
    now rewrite Hv.
Qed.

(** X11. On a configured client, [getWebhookByID], [createWebhook] and
    [getAllWebhooks] issue exactly one call, to the URL built from the API
    endpoint and the key, and return the remote's data as it is.  A
    rejection that has no response, or whose response has a body, is
    rethrown as a plain error that names the method ([getAllWebhooks] calls
    itself [getWebhooks]) followed by a detail.  The detail is
    [response.data.error] as [String()] renders it when that value is
    truthy, whatever its kind; otherwise (no response, no such field, or a
    falsy value such as the empty string) it is the rejection as a template
    literal renders it: its name, and after a colon its message unless the
    message is empty. *)
Theorem single_call_methods_report_failures :
  forall (this : Helius) (remote : Remote)
         (on_get_all : trace -> string -> exn + list Webhook.t) (t : trace),
    configured this ->
    (forall webhookID,
       getWebhookByID this remote webhookID t =
       (match on_get remote t (webhook_url this webhookID) with
        | inl e => Threw (Error ("error during getWebhookByID: " ++
                                 failure_detail e)%string)
        | inr w => Returned w
        end,
        t ++ [HttpGet (webhook_url this webhookID)]))
    /\ (forall payload,
          createWebhook this remote payload t =
          (match on_post_webhook remote t (webhooks_url this) payload with
           | inl e => Threw (Error ("error during createWebhook: " ++
                                    failure_detail e)%string)
           | inr w => Returned w
           end,
           t ++ [HttpPostWebhook (webhooks_url this) payload]))
    /\ getAllWebhooks this on_get_all t =
       (match on_get_all t (webhooks_url this) with
        | inl e => Threw (Error ("error calling getWebhooks: " ++
                                 failure_detail e)%string)
        | inr ws => Returned ws
        end,
        t ++ [HttpGet (webhooks_url this)])
    /\ (forall m v,
          value_truthy v = true ->
          failure_detail (AxiosError m (defined v)) = value_to_string v)
    /\ (forall m s,
          s <> ""%string ->
          failure_detail (AxiosError m (defined (JsString s))) = s)
    /\ (forall m is_truthy rendering,
          failure_detail (AxiosError m (defined (JsOther is_truthy rendering))) =
          if is_truthy then rendering
          else exn_to_string (AxiosError m (defined (JsOther is_truthy rendering))))
    /\ (forall m d,
          d = undefined \/ d = null \/
          (exists v, d = defined v /\ value_truthy v = false) ->
          failure_detail (AxiosError m d) =
          if (m =? "")%string then "AxiosError"%string
          else ("AxiosError: " ++ m)%string)
    /\ (forall m,
          failure_detail (Error m) =
          if (m =? "")%string then "Error"%string else ("Error: " ++ m)%string).
Proof.
  intros this remote on_get_all t Hkey.
  split; [| split; [| split; [| split; [| split; [| split; [| split]]]]]].
  - intros webhookID. rewrite (getWebhookByID_run this remote Hkey).
    destruct (on_get remote t _) as [e |]; [| reflexivity].
    now rewrite (rethrow_detail "getWebhookByID" e).
  - intros payload. rewrite (createWebhook_run this remote Hkey).
    destruct (on_post_webhook remote t _ _) as [e |]; [| reflexivity].
    now rewrite (rethrow_detail "createWebhook" e).
  - unfold getAllWebhooks, try_catch, bind.
    rewrite (getApiEndpoint_webhooks this Hkey). simpl. unfold request.
    destruct (on_get_all t (webhooks_url this)) as [e |]; [| reflexivity].
    now rewrite (rethrow_calling_detail "getWebhooks" e).
  - intros m v Hv. unfold failure_detail. simpl. now rewrite Hv.
  - intros m s Hs. unfold failure_detail. simpl.
    apply String.eqb_neq in Hs. now rewrite Hs.
  - intros m is_truthy rendering. unfold failure_detail. simpl.
    now destruct is_truthy.
  - intros m d Hd. unfold failure_detail.
    now rewrite (proj2 (value_or_error_cases _ _) Hd).
  - reflexivity.
Qed.

Lemma single_call_methods_report_failures_witness :
  getWebhookByID Sample.helius Fixture.empty_remote "wh9" [] =
  (Threw (Error "error during getWebhookByID: webhook not found"),
   [HttpGet (webhook_url Sample.helius "wh9")]).
Proof.
  exact (proj1 (single_call_methods_report_failures Sample.helius
                  Fixture.empty_remote (fun _ _ => inr []) [] eq_refl) "wh9").
Defined.

(** X12. [deleteWebhook] never returns [false]: on a configured client it
    issues one DELETE of the webhook's URL and returns [true] when the
    remote accepts it, and throws [error during deleteWebhook: ...] when it
    does not; on any client the result is [true] or an exception. *)
Theorem deleteWebhook_true_or_throws :
  forall (this : Helius) (on_delete : list delete_call -> string -> exn + unit)
         (webhookID : string) (log : list delete_call),
    fst (deleteWebhook this on_delete webhookID log) <> Logged.Fulfilled false
    /\ (configured this ->
        deleteWebhook this on_delete webhookID log =
        (match on_delete log (webhook_url this webhookID) with
         | inl e => Logged.Rejected
                      (Error ("error during deleteWebhook: " ++
                              failure_detail e)%string)
         | inr _ => Logged.Fulfilled true
         end,
         log ++ [HttpDelete (webhook_url this webhookID)])).
Proof.
  intros this on_delete webhookID log.
  unfold deleteWebhook, Logged.try_catch, Logged.bind. split.
  - destruct (getApiEndpoint this _) as [e | url]; simpl; [discriminate |].
    unfold Logged.request.
    destruct (on_delete log url); simpl; discriminate.
  - intros Hkey. rewrite (getApiEndpoint_webhook this Hkey). simpl.
    unfold Logged.request.
    destruct (on_delete log _) as [e |]; simpl; [| reflexivity].
    now rewrite (rethrow_detail "deleteWebhook" e).
Qed.

(** *** Runs of the collection webhook *)

(** X13. Every run of [createCollectionWebhook] on a request with a query
    object, whatever the remote answers and however it ends, consists of
    page requests that all carry the same query, holding the creators when
    they were given and the collection addresses otherwise and never both,
    with a limit of 10,000, followed by at most one create call.  When
    there is a create call, the page requests are exactly those of a chain
    of pages the remote served, ended by the first page without token, and
    the payload is built from the request and the items of those pages. *)
Theorem collection_webhook_run_shape :
  forall (this : Helius) (remote : Remote) (fuel : nat)
         (req : CreateCollectionWebhookRequest.t) (cq : CollectionIdentifier.t)
         (t : trace),
    CreateCollectionWebhookRequest.collectionQuery req = defined cq ->
    exists (pages creates : trace),
      snd (createCollectionWebhook this remote fuel (defined req) t)
        = t ++ pages ++ creates
      /\ Forall (drain_page_call this (collection_query cq)) pages
      /\ (creates = [] \/
          exists (page : MintlistResponse.t) (rest : list MintlistResponse.t),
            pages_served this remote (collection_query cq) undefined t
              (page :: rest)
            /\ last_without_token page rest
            /\ pages = page_calls this (collection_query cq) undefined
                         (page :: rest)
            /\ creates = [HttpPostWebhook (webhooks_url this)
                            (collection_payload req (items_of (page :: rest)))])
      /\ both_selectors (collection_query cq) = false
      /\ (is_nullish (CollectionIdentifier.firstVerifiedCreators cq) = false ->
          collection_query cq =
          {| CollectionIdentifier.firstVerifiedCreators :=
               CollectionIdentifier.firstVerifiedCreators cq;
             CollectionIdentifier.verifiedCollectionAddresses := undefined |})
      /\ (is_nullish (CollectionIdentifier.firstVerifiedCreators cq) = true ->
          collection_query cq =
          {| CollectionIdentifier.firstVerifiedCreators := undefined;
             CollectionIdentifier.verifiedCollectionAddresses :=
               CollectionIdentifier.verifiedCollectionAddresses cq |}).
Proof.
  intros this remote fuel req cq t Hcq.
  destruct (collection_run_log this remote fuel req cq t Hcq)
    as [pages [creates [Hlog [Hpages Hcreates]]]].
  exists pages, creates.
  split; [exact Hlog |]. split; [exact Hpages |]. split; [exact Hcreates |].
  split; [apply collection_query_valid |].
  unfold collection_query. split; intros H; now rewrite H.
Qed.

Lemma collection_webhook_run_shape_witness :
  exists (pages creates : trace),
    snd (createCollectionWebhook Sample.helius Sample.remote 1
           (defined (Sample.collection_request Sample.by_collections)) [])
      = [] ++ pages ++ creates
    /\ Forall (drain_page_call Sample.helius
                 (collection_query Sample.by_collections)) pages
    /\ (creates = [] \/
        exists (page : MintlistResponse.t) (rest : list MintlistResponse.t),
          pages_served Sample.helius Sample.remote
            (collection_query Sample.by_collections) undefined [] (page :: rest)
          /\ last_without_token page rest
          /\ pages = page_calls Sample.helius
                       (collection_query Sample.by_collections) undefined
                       (page :: rest)
          /\ creates = [HttpPostWebhook (webhooks_url Sample.helius)
                          (collection_payload
                             (Sample.collection_request Sample.by_collections)
                             (items_of (page :: rest)))])
    /\ both_selectors (collection_query Sample.by_collections) = false
    /\ (is_nullish (CollectionIdentifier.firstVerifiedCreators
                      Sample.by_collections) = false ->
        collection_query Sample.by_collections =
        {| CollectionIdentifier.firstVerifiedCreators :=
             CollectionIdentifier.firstVerifiedCreators Sample.by_collections;
           CollectionIdentifier.verifiedCollectionAddresses := undefined |})
    /\ (is_nullish (CollectionIdentifier.firstVerifiedCreators
                      Sample.by_collections) = true ->
        collection_query Sample.by_collections =
        {| CollectionIdentifier.firstVerifiedCreators := undefined;
           CollectionIdentifier.verifiedCollectionAddresses :=
             CollectionIdentifier.verifiedCollectionAddresses
               Sample.by_collections |}).
Proof.
  exact (collection_webhook_run_shape Sample.helius Sample.remote 1
           (Sample.collection_request Sample.by_collections)
           Sample.by_collections [] eq_refl).
Defined.

(** With a token on every page the loop goes on as long as it is allowed
    to. *)
Lemma drain_loop_endless (this : Helius) (remote : Remote)
    (query : CollectionIdentifier.t) :
  configured this ->
  both_selectors query = false ->
  always_more this remote query ->
  forall (fuel : nat) (mints : MintlistResponse.t)
         (mintlist : list MintlistItem.t) (t : trace),
    truthy (MintlistResponse.paginationToken mints) = true ->
    exists added : trace,
      drain_loop this remote fuel query mints mintlist t = (OutOfFuel, t ++ added)
      /\ length added = fuel.
Proof.
  intros Hkey Hquery Hmore.
  induction fuel as [| fuel IH]; intros mints mintlist t Htoken.
  - exists []. simpl. rewrite Htoken, app_nil_r. auto.
  - rewrite (drain_loop_continues this remote query fuel mints mintlist t Htoken).
    unfold bind. rewrite (page_request_run this remote Hkey query Hquery).
    destruct (Hmore t (MintlistResponse.paginationToken mints))
      as [page [Hpage Hnext]].
    rewrite Hpage.
    destruct (IH page (mintlist ++ MintlistResponse.result page)
                (t ++ [HttpPostMintlist (mintlist_url this)
                         (page_request query
                            (MintlistResponse.paginationToken mints))]) Hnext)
      as [added [Hrun Hlen]].
    exists (HttpPostMintlist (mintlist_url this)
              (page_request query (MintlistResponse.paginationToken mints))
            :: added).
    rewrite Hrun, <- app_assoc. simpl. auto.
Qed.

(** X14. The loop has no bound of its own: against a remote that hands out
    a token with every page, [createCollectionWebhook] never gets to the
    create call.  For every number of iterations allowed, the run is still
    in the loop when they are used up, having issued one page request more
    than that number and nothing else. *)
Theorem endless_tokens_keep_the_drain_going :
  forall (this : Helius) (remote : Remote) (fuel : nat)
         (req : CreateCollectionWebhookRequest.t) (cq : CollectionIdentifier.t)
         (t : trace),
    configured this ->
    CreateCollectionWebhookRequest.collectionQuery req = defined cq ->
    both_selectors cq = false ->
    always_more this remote (collection_query cq) ->
    exists added : trace,
      createCollectionWebhook this remote fuel (defined req) t
        = (OutOfFuel, t ++ added)
      /\ length added = S fuel
      /\ Forall (drain_page_call this (collection_query cq)) added.
Proof.
  intros this remote fuel req cq t Hkey Hcq Hboth Hmore.
  rewrite (createCollectionWebhook_valid this remote fuel req cq t Hcq Hboth).
  assert (Hdrain : exists added,
            drain this remote fuel (collection_query cq) t = (OutOfFuel, t ++ added)
            /\ length added = S fuel).
  { unfold drain, bind.
    rewrite (page_request_run this remote Hkey (collection_query cq)
               (collection_query_valid cq)).
    destruct (Hmore t undefined) as [page [Hpage Hnext]]. rewrite Hpage.
    destruct (drain_loop_endless this remote (collection_query cq) Hkey
                (collection_query_valid cq) Hmore fuel page
                ([] ++ MintlistResponse.result page)
                (t ++ [HttpPostMintlist (mintlist_url this)
                         (page_request (collection_query cq) undefined)])
                Hnext)
      as [added [Hrun Hlen]].
    exists (HttpPostMintlist (mintlist_url this)
              (page_request (collection_query cq) undefined) :: added).
    rewrite Hrun, <- app_assoc. simpl. auto. }
  destruct Hdrain as [added [Hrun Hlen]].
  exists added. unfold try_catch, bind. rewrite Hrun.
  split; [reflexivity |]. split; [exact Hlen |].
  destruct (drain_adds_page_calls this remote fuel (collection_query cq) t)
    as [added' [Hlog Hall]].
  rewrite Hrun in Hlog. simpl in Hlog. apply app_inv_head in Hlog.
  now subst added'.
Qed.

Lemma endless_tokens_keep_the_drain_going_witness :
  exists added : trace,
    createCollectionWebhook Sample.helius Fixture.endless_remote 3
      (defined (Sample.collection_request Sample.by_collections)) []
      = (OutOfFuel, [] ++ added)
    /\ length added = 4
    /\ Forall (drain_page_call Sample.helius
                 (collection_query Sample.by_collections)) added.
Proof.
  apply (endless_tokens_keep_the_drain_going Sample.helius Fixture.endless_remote
           3 (Sample.collection_request Sample.by_collections)
           Sample.by_collections [] eq_refl eq_refl eq_refl).
  intros t token. exists Sample.page1. split; reflexivity.
Defined.

(** *** The JSON-RPC client *)

Section RpcFacts.

Variable value : Type.
Variable stringify : js_opt value -> string.
Variable truthy_value : value -> bool.
Variable this : RpcClient.t.
Variable answer : list (Rpc.call value) -> Rpc.call value
                  -> Rpc.exc value + Rpc.rpc_data value.

Lemma das_method_run (method name : string) (content_type : js_opt string)
    (params : value) (log : list (Rpc.call value)) :
  Rpc.das_method value this answer method name content_type params log =
  (match answer log (asset_call this method content_type params) with
   | inl e => Logged.Rejected
                (Rpc.RpcError ("Error in " ++ name ++ ": " ++
                               Rpc.to_string value e)%string)
   | inr data => Logged.Fulfilled (Rpc.result value data)
   end,
   log ++ [asset_call this method content_type params]).
Proof.
  unfold Rpc.das_method, Logged.try_catch, Logged.bind, Rpc.axios_post,
    Logged.request, asset_call.
  destruct (answer log _); reflexivity.
Qed.

Lemma asset_methods_are_das_methods (method name : string)
    (content_type : js_opt string)
    (f : value -> Logged.t (Rpc.call value) (Rpc.exc value) (js_opt value)) :
  In (method, name, content_type, f) (Rpc.asset_methods value this answer) ->
  f = Rpc.das_method value this answer method name content_type.
Proof.
  unfold Rpc.asset_methods. simpl.
  intros H.
  repeat (destruct H as [H | H]; [injection H as <- <- <- <-; reflexivity |]).
  contradiction.
Qed.

Lemma getPriorityFeeEstimate_run (params : value) (log : list (Rpc.call value)) :
  Rpc.getPriorityFeeEstimate value stringify truthy_value this answer params log =
  (match answer log (fee_call this params) with
   | inl (Rpc.RpcAxiosError _ (Some response_data)) =>
       Logged.Rejected
         (Rpc.RpcError ("Error fetching priority fee estimate: " ++
                        stringify response_data)%string)
   | inl e =>
       Logged.Rejected
         (Rpc.RpcError ("Error fetching priority fee estimate: " ++
                        Rpc.to_string value e)%string)
   | inr data =>
       if Rpc.truthy_opt value truthy_value (Rpc.error value data) then
         Logged.Rejected
           (Rpc.RpcError
              ("Error fetching priority fee estimate: Error: Error fetching priority fee estimate: "
               ++ stringify (Rpc.error value data))%string)
       else Logged.Fulfilled (Rpc.result value data)
   end,
   log ++ [fee_call this params]).
Proof.
  unfold Rpc.getPriorityFeeEstimate, Logged.try_catch, Logged.bind,
    Rpc.axios_post, Logged.request, fee_call, Rpc.json_headers.
  destruct (answer log _) as [[m | m [d |]] | data]; try reflexivity.
  destruct (Rpc.truthy_opt value truthy_value (Rpc.error value data));
    reflexivity.
Qed.

Lemma sendJitoBundle_run (serializedTransactions : list string)
    (jitoApiUrl : string) (log : list (Rpc.call value)) :
  Rpc.sendJitoBundle value stringify truthy_value answer serializedTransactions
    jitoApiUrl log =
  (match answer log (bundle_call "sendBundle" serializedTransactions jitoApiUrl) with
   | inl e => Logged.Rejected e
   | inr data =>
       if Rpc.truthy_opt value truthy_value (Rpc.error value data) then
         Logged.Rejected
           (Rpc.RpcError ("Error sending bundles: " ++
                          stringify (Rpc.error value data))%string)
       else Logged.Fulfilled (Rpc.result value data)
   end,
   log ++ [bundle_call "sendBundle" serializedTransactions jitoApiUrl]).
Proof.
  unfold Rpc.sendJitoBundle, Logged.bind, Rpc.axios_post, Logged.request,
    bundle_call, Rpc.json_headers.
  destruct (answer log _) as [e | data]; try reflexivity.
  destruct (Rpc.truthy_opt value truthy_value (Rpc.error value data));
    reflexivity.
Qed.

Lemma getBundleStatuses_run (bundleIds : list string) (jitoApiUrl : string)
    (log : list (Rpc.call value)) :
  Rpc.getBundleStatuses value stringify truthy_value answer bundleIds jitoApiUrl
    log =
  (match answer log (bundle_call "getBundleStatuses" bundleIds jitoApiUrl) with
   | inl e => Logged.Rejected e
   | inr data =>
       if Rpc.truthy_opt value truthy_value (Rpc.error value data) then
         Logged.Rejected
           (Rpc.RpcError ("Error getting bundle statuses: " ++
                          stringify (Rpc.error value data))%string)
       else Logged.Fulfilled (Rpc.result value data)
   end,
   log ++ [bundle_call "getBundleStatuses" bundleIds jitoApiUrl]).
Proof.
  unfold Rpc.getBundleStatuses, Logged.bind, Rpc.axios_post, Logged.request,
    bundle_call, Rpc.json_headers.
  destruct (answer log _) as [e | data]; try reflexivity.
  destruct (Rpc.truthy_opt value truthy_value (Rpc.error value data));
    reflexivity.
Qed.

End RpcFacts.

(** X15. What the JSON-RPC client makes of an answered call.  The twelve
    asset methods return [data.result] whatever else the answer holds: an
    error object in the answer is not noticed, and the caller gets the
    (missing) result.  [getPriorityFeeEstimate], [sendJitoBundle] and
    [getBundleStatuses] throw on a truthy error object; the fee estimate
    throws inside its own [try], so its message carries the prefix twice,
    while the bundle methods carry theirs once.  Each method issues exactly
    one call. *)
Theorem rpc_answers :
  forall (value : Type) (stringify : js_opt value -> string)
         (truthy_value : value -> bool) (this : RpcClient.t)
         (answer : list (Rpc.call value) -> Rpc.call value
                   -> Rpc.exc value + Rpc.rpc_data value)
         (log : list (Rpc.call value)) (data : Rpc.rpc_data value),
    (forall method name content_type f params,
       In (method, name, content_type, f) (Rpc.asset_methods value this answer) ->
       answer log (asset_call this method content_type params) = inr data ->
       f params log =
       (Logged.Fulfilled (Rpc.result value data),
        log ++ [asset_call this method content_type params]))
    /\ (forall params,
          answer log (fee_call this params) = inr data ->
          Rpc.getPriorityFeeEstimate value stringify truthy_value this answer
            params log =
          (if Rpc.truthy_opt value truthy_value (Rpc.error value data) then
             Logged.Rejected
               (Rpc.RpcError
                  ("Error fetching priority fee estimate: Error: Error fetching priority fee estimate: "
                   ++ stringify (Rpc.error value data))%string)
           else Logged.Fulfilled (Rpc.result value data),
           log ++ [fee_call this params]))
    /\ (forall serializedTransactions jitoApiUrl,
          answer log (bundle_call "sendBundle" serializedTransactions jitoApiUrl)
            = inr data ->
          Rpc.sendJitoBundle value stringify truthy_value answer
            serializedTransactions jitoApiUrl log =
          (if Rpc.truthy_opt value truthy_value (Rpc.error value data) then
             Logged.Rejected
               (Rpc.RpcError ("Error sending bundles: " ++
                              stringify (Rpc.error value data))%string)
           else Logged.Fulfilled (Rpc.result value data),
           log ++ [bundle_call "sendBundle" serializedTransactions jitoApiUrl]))
    /\ (forall bundleIds jitoApiUrl,
          answer log (bundle_call "getBundleStatuses" bundleIds jitoApiUrl)
            = inr data ->
          Rpc.getBundleStatuses value stringify truthy_value answer bundleIds
            jitoApiUrl log =
          (if Rpc.truthy_opt value truthy_value (Rpc.error value data) then
             Logged.Rejected
               (Rpc.RpcError ("Error getting bundle statuses: " ++
                              stringify (Rpc.error value data))%string)
           else Logged.Fulfilled (Rpc.result value data),
           log ++ [bundle_call "getBundleStatuses" bundleIds jitoApiUrl])).
Proof.
  intros value stringify truthy_value this answer log data.
  split; [| split; [| split]].
  - intros method name content_type f params Hin Hanswer.
    rewrite (asset_methods_are_das_methods value this answer _ _ _ _ Hin).
    now rewrite das_method_run, Hanswer.
  - intros params Hanswer.
    rewrite getPriorityFeeEstimate_run, Hanswer.
    now destruct (Rpc.truthy_opt value truthy_value (Rpc.error value data)).
  - intros serializedTransactions jitoApiUrl Hanswer.
    rewrite sendJitoBundle_run, Hanswer.
    now destruct (Rpc.truthy_opt value truthy_value (Rpc.error value data)).
  - intros bundleIds jitoApiUrl Hanswer.
    rewrite getBundleStatuses_run, Hanswer.
    now destruct (Rpc.truthy_opt value truthy_value (Rpc.error value data)).
Qed.

Example rpc_error_object_on_getAsset :
  Rpc.getAsset string Fixture.rpc_client Fixture.rpc_refusing "asset1" [] =
  (Logged.Fulfilled undefined,
   [asset_call Fixture.rpc_client "getAsset" (defined "application/json") "asset1"]).
Proof. reflexivity. Qed.

Example rpc_error_object_on_fee_estimate :
  Rpc.getPriorityFeeEstimate string Fixture.rpc_stringify Fixture.rpc_truthy
    Fixture.rpc_client Fixture.rpc_refusing "request" [] =
  (Logged.Rejected
     (Rpc.RpcError "Error fetching priority fee estimate: Error: Error fetching priority fee estimate: method not found"),
   [fee_call Fixture.rpc_client "request"]).
Proof. reflexivity. Qed.

(** X16. What the JSON-RPC client makes of a rejected call.  The asset
    methods rethrow it as [Error in NAME: ...] with the rejection's text;
    [getPriorityFeeEstimate] rethrows it with the response body when the
    rejection has a response and with the rejection's text otherwise;
    [sendJitoBundle] and [getBundleStatuses] have no [catch] and let the
    rejection through as it is.  In every case the one call was issued. *)
Theorem rpc_rejections :
  forall (value : Type) (stringify : js_opt value -> string)
         (truthy_value : value -> bool) (this : RpcClient.t)
         (answer : list (Rpc.call value) -> Rpc.call value
                   -> Rpc.exc value + Rpc.rpc_data value)
         (log : list (Rpc.call value)) (e : Rpc.exc value),
    (forall method name content_type f params,
       In (method, name, content_type, f) (Rpc.asset_methods value this answer) ->
       answer log (asset_call this method content_type params) = inl e ->
       f params log =
       (Logged.Rejected
          (Rpc.RpcError ("Error in " ++ name ++ ": " ++
                         Rpc.to_string value e)%string),
        log ++ [asset_call this method content_type params]))
    /\ (forall params,
          answer log (fee_call this params) = inl e ->
          Rpc.getPriorityFeeEstimate value stringify truthy_value this answer
            params log =
          (Logged.Rejected
             (Rpc.RpcError
                ("Error fetching priority fee estimate: " ++
                 match e with
                 | Rpc.RpcAxiosError _ (Some response_data) =>
                     stringify response_data
                 | _ => Rpc.to_string value e
                 end)%string),
           log ++ [fee_call this params]))
    /\ (forall serializedTransactions jitoApiUrl,
          answer log (bundle_call "sendBundle" serializedTransactions jitoApiUrl)
            = inl e ->
          Rpc.sendJitoBundle value stringify truthy_value answer
            serializedTransactions jitoApiUrl log =
          (Logged.Rejected e,
           log ++ [bundle_call "sendBundle" serializedTransactions jitoApiUrl]))
    /\ (forall bundleIds jitoApiUrl,
          answer log (bundle_call "getBundleStatuses" bundleIds jitoApiUrl)
            = inl e ->
          Rpc.getBundleStatuses value stringify truthy_value answer bundleIds
            jitoApiUrl log =
          (Logged.Rejected e,
           log ++ [bundle_call "getBundleStatuses" bundleIds jitoApiUrl])).
Proof.
  intros value stringify truthy_value this answer log e.
  split; [| split; [| split]].
  - intros method name content_type f params Hin Hanswer.
    rewrite (asset_methods_are_das_methods value this answer _ _ _ _ Hin).
    now rewrite das_method_run, Hanswer.
  - intros params Hanswer.
    rewrite getPriorityFeeEstimate_run, Hanswer.
    destruct e as [m | m [d |]]; reflexivity.
  - intros serializedTransactions jitoApiUrl Hanswer.
    now rewrite sendJitoBundle_run, Hanswer.
  - intros bundleIds jitoApiUrl Hanswer.
    now rewrite getBundleStatuses_run, Hanswer.
Qed.

Example rpc_rejection_on_fee_estimate :
  Rpc.getPriorityFeeEstimate string Fixture.rpc_stringify Fixture.rpc_truthy
    Fixture.rpc_client Fixture.rpc_unreachable "request" [] =
  (Logged.Rejected
     (Rpc.RpcError "Error fetching priority fee estimate: rate limited"),
   [fee_call Fixture.rpc_client "request"]).
Proof. reflexivity. Qed.

Example rpc_rejection_on_sendJitoBundle :
  Rpc.sendJitoBundle string Fixture.rpc_stringify Fixture.rpc_truthy
    Fixture.rpc_unreachable ["tx1"; "tx2"] "https://jito.example" [] =
  (Logged.Rejected
     (Rpc.RpcAxiosError "Request failed with status code 429"
        (Some (defined "rate limited"))),
   [bundle_call "sendBundle" ["tx1"; "tx2"] "https://jito.example"]).
Proof. reflexivity. Qed.

(** *** Where the errors of the collection webhook come from *)

Section DrainThrows.

Variable this : Helius.
Variable remote : Remote.
Hypothesis Hkey : configured this.

Variable query : CollectionIdentifier.t.
Hypothesis Hquery : both_selectors query = false.



End DrainThrows.


